(** * Equipment capability and reach engine of the breakwater package

    A shallow embedding of [breakwater/equipment/equipment.py] and the
    properties of its [install] decisions.

    Conventions of the embedding.
    - Python floats are exact rationals ([Q]); [float("inf")] and
      [float("-inf")] are the two extra points of [ext].  Comparisons are
      the boolean tests the code writes ([>=], [>], [==]).
    - A Python exception is a value [Raise e] of [result]; a method that
      assigns attributes returns the updated object next to its result.
    - [plot=True] only draws (matplotlib); every call is modelled with
      [plot=False], the default.
    - [install] of an Excavator or a Crane calls itself (the slope
      fallback): the embedding counts the nested calls with [fuel] and
      answers [None] when they exceed it.
    - shapely ([Polygon], [within]) is an external library: its call is a
      parameter [Polygon_within] that may raise.  Its value only reaches
      [plot]. *)

From Stdlib Require Import QArith Qabs Lqa.
From stdpp Require Import base option list strings gmap.

Local Open Scope Q_scope.

(** ** Python values: exceptions and extended numbers *)

Inductive exn : Set :=
| ValueError | ZeroDivisionError | TypeError | IndexError | KeyError | UserWarning.

Inductive result (A : Type) : Type :=
| Ok (a : A)
| Raise (e : exn).
Arguments Ok {A} a.
Arguments Raise {A} e.

#[global] Instance result_ret : MRet result := fun A a => Ok a.
#[global] Instance result_bind : MBind result := fun A B f m =>
  match m with Ok a => f a | Raise e => Raise e end.

(** A float or one of the two infinities. *)
Inductive ext : Set :=
| NegInf
| Fin (q : Q)
| PosInf.

Definition Qgeb (a b : Q) : bool := Qle_bool b a.          (* a >= b *)
Definition Qgtb (a b : Q) : bool := negb (Qle_bool a b).   (* a > b  *)
Definition Qltb (a b : Q) : bool := negb (Qle_bool b a).   (* a < b  *)

(** [a >= b] for [a] possibly infinite. *)
Definition ext_geb (a : ext) (b : Q) : bool :=
  match a with
  | NegInf => false
  | Fin q => Qgeb q b
  | PosInf => true
  end.

(** [a <= b] for [b] possibly infinite. *)
Definition le_ext (a : Q) (b : ext) : bool := ext_geb b a.

(** [h <= np.sqrt(d)]: the square root of a negative number is nan, and
    every comparison with nan is false. *)
Definition le_sqrt (h d : Q) : bool :=
  if Qltb d 0 then false
  else Qle_bool h 0 || Qle_bool (h * h) d.

(** ** Python builtins on sequences *)

(** The smallest and the largest of [x :: l], the first one among equals. *)
Definition Qmin_from (x : Q) (l : list Q) : Q :=
  fold_left (fun m y => if Qltb y m then y else m) l x.

Definition Qmax_from (x : Q) (l : list Q) : Q :=
  fold_left (fun m y => if Qgtb y m then y else m) l x.

(** [min(l)] and [max(l)]: ValueError on an empty sequence. *)
Definition py_min (l : list Q) : result Q :=
  match l with
  | [] => Raise ValueError
  | x :: l' => Ok (Qmin_from x l')
  end.

Definition py_max (l : list Q) : result Q :=
  match l with
  | [] => Raise ValueError
  | x :: l' => Ok (Qmax_from x l')
  end.

Abbreviation coord := (Q * Q)%type.

(** Tuples compare lexicographically. *)
Definition tuple_gtb (a b : coord) : bool :=
  Qgtb (fst a) (fst b) || (Qeq_bool (fst a) (fst b) && Qgtb (snd a) (snd b)).

Definition tuple_max_from (x : coord) (l : list coord) : coord :=
  fold_left (fun m y => if tuple_gtb y m then y else m) l x.

Definition py_max_tuple (l : list coord) : result coord :=
  match l with
  | [] => Raise ValueError
  | x :: l' => Ok (tuple_max_from x l')
  end.

(** [x, y = zip] of the unpacked [section_coords]: the unpacking fails on
    an empty section. *)
Definition unzip_coords (section_coords : list coord) : result (list Q * list Q) :=
  match section_coords with
  | [] => Raise ValueError
  | _ => Ok (map fst section_coords, map snd section_coords)
  end.

(** [sorted(l, key=...)] is stable; [le a b] says that [a] may stay before [b]. *)
Fixpoint insert_sorted {A : Type} (le : A -> A -> bool) (a : A) (l : list A) : list A :=
  match l with
  | [] => [a]
  | b :: l' => if le a b then a :: b :: l' else b :: insert_sorted le a l'
  end.

Definition sorted {A : Type} (le : A -> A -> bool) (l : list A) : list A :=
  fold_right (insert_sorted le) [] l.

(** [np.unique]: the distinct values, ascending. *)
Fixpoint insert_unique (a : Q) (l : list Q) : list Q :=
  match l with
  | [] => [a]
  | b :: l' =>
      if Qeq_bool a b then b :: l'
      else if Qltb a b then a :: b :: l'
      else b :: insert_unique a l'
  end.

Definition np_unique (l : list Q) : list Q := fold_right insert_unique [] l.

(** A dict with float keys, in insertion order. *)
Definition dict_get {V : Type} (k : Q) (d : list (Q * V)) : option V :=
  snd <$> List.find (fun kv => Qeq_bool (fst kv) k) d.

Fixpoint dict_set {V : Type} (k : Q) (v : V) (d : list (Q * V)) : list (Q * V) :=
  match d with
  | [] => [(k, v)]
  | (k', v') :: d' => if Qeq_bool k' k then (k', v) :: d' else (k', v') :: dict_set k v d'
  end.

(** ** class Equipment *)

Record Equipment : Type := {
  name : string;
  design_type : gmap string (gmap string Q);
  mobilisation_cost : gmap string Q;
  equipment_cost : gmap string Q;
  waterlvl : Q
}.

Definition zero_cost : gmap string Q := {[ "cost"%string := 0; "CO2"%string := 0 ]}.

Definition Equipment_init (name : string) (design_type : gmap string (gmap string Q))
    (waterlvl : Q) (equipment_cost mobilisation_cost : option (gmap string Q)) : Equipment :=
  {| name := name;
     design_type := design_type;
     mobilisation_cost := default zero_cost mobilisation_cost;
     equipment_cost := default zero_cost equipment_cost;
     waterlvl := waterlvl |}.

Definition set_waterlvl (w : Q) (e : Equipment) : Equipment :=
  {| name := name e; design_type := design_type e;
     mobilisation_cost := mobilisation_cost e;
     equipment_cost := equipment_cost e; waterlvl := w |}.

Definition set_design_type (d : gmap string (gmap string Q)) (e : Equipment) : Equipment :=
  {| name := name e; design_type := d;
     mobilisation_cost := mobilisation_cost e;
     equipment_cost := equipment_cost e; waterlvl := waterlvl e |}.

(** [grading_layer in self.design_type.keys()] *)
Definition has_grading (e : Equipment) (grading_layer : string) : bool :=
  bool_decide (is_Some (design_type e !! grading_layer)).

Definition Qsum (args : list Q) : Q := fold_left Qplus args 0.

(** [Equipment.location_equipment]; [is_barge] is [isinstance(equip, Barge)]. *)
Definition location_equipment (args : list Q) (xpoint : Q) (section_coords : list coord)
    (is_barge : bool) (y_installation_waterdepth height ymax : Q) : result (Q * Q * bool) :=
  '(x_section, y_section) ← unzip_coords section_coords;
  let right_side := forallb (fun x => Qgeb x 0) x_section in
  if is_barge then
    let yloc_equip := y_installation_waterdepth + height in
    if right_side then Ok (xpoint + Qsum args, yloc_equip, true)
    else Ok (- xpoint - Qsum args, yloc_equip, false)
  else
    let yloc_equip := ymax in
    if right_side then Ok (xpoint - Qsum args, yloc_equip, false)
    else Ok (- xpoint + Qsum args, yloc_equip, true).

(** [Equipment.get_production_rate]: the method assigns into the nested
    dict before it raises, so the updated equipment is returned as well. *)
Definition get_production_rate (self : Equipment) (layer grading_layer : string)
    : result Q * Equipment :=
  match design_type self !! grading_layer with
  | None => (Raise KeyError, self)
  | Some d =>
      match d !! "production_rate"%string with
      | None =>
          (Raise UserWarning,
           set_design_type
             (<[grading_layer := <["production_rate"%string := 1]> d]> (design_type self)) self)
      | Some rate => (Ok rate, self)
      end
  end.

(** ** class Truck *)

Record Truck : Type := {
  truck_base : Equipment;
  truck_h_dry : Q;
  truck_required_length : Q;
  truck_level : option Q          (* [self.level], set by [install] *)
}.

Definition py_max2 (a b : Q) : Q := if Qgtb b a then b else a.

Definition Truck_install (self : Truck) (layer grading_layer : string) (ymax : Q)
    (section_coords : list coord) (length_top : ext) : result bool * Truck :=
  match unzip_coords section_coords with
  | Raise e => (Raise e, self)
  | Ok (x, y) =>
      match py_min y with
      | Raise e => (Raise e, self)
      | Ok y_start =>
          let w := waterlvl (truck_base self) in
          let level := py_max2 (y_start - w) (ymax - w) in
          let self' := {| truck_base := truck_base self;
                          truck_h_dry := truck_h_dry self;
                          truck_required_length := truck_required_length self;
                          truck_level := Some level |} in
          (Ok (has_grading (truck_base self) grading_layer
               && (Qgeb level (truck_h_dry self)
                   && ext_geb length_top (truck_required_length self))),
           self')
      end
  end.

(** ** class PlateFeeder *)

Record PlateFeeder : Type := {
  feeder_base : Equipment;
  feeder_h_dry : Q;
  feeder_top_installation : Q
}.

Definition PlateFeeder_install (self : PlateFeeder) (layer grading_layer : string)
    (ymax : Q) (section_coords : list coord) (level : option Q) : result bool :=
  '(x, y) ← unzip_coords section_coords;
  y_start ← py_min y;
  y_top ← py_max y;
  let w := waterlvl (feeder_base self) in
  let level := match level with
               | None => py_max2 (y_start - w) (ymax - w)
               | Some l => l
               end in
  Ok (has_grading (feeder_base self) grading_layer
      && (Qgeb level (feeder_h_dry self)
          && Qle_bool y_top (level + feeder_top_installation self))).

(** ** class Vessel *)

Record Vessel : Type := {
  vessel_base : Equipment;
  vessel_installation_waterdepth : Q;
  vessel_ukc : Q
}.

Definition Vessel_install (self : Vessel) (section_coords : list coord)
    (layer grading_layer : string) : result bool :=
  '(x, y) ← unzip_coords section_coords;
  end_ ← py_max y;
  Ok (has_grading (vessel_base self) grading_layer
      && Qgeb (waterlvl (vessel_base self)
               - (vessel_installation_waterdepth self + vessel_ukc self)) end_).

(** ** Arguments of [Excavator.install] and [Crane.install]

    [xloc_equip] and [yloc_equip] are given together or not at all
    ([loc_equip]); [length_top] is infinite when a Barge calls. *)

Record install_args : Type := {
  layer : string;
  grading_layer : string;
  ymax : Q;
  section_coords : list coord;
  xmax_top : Q;
  mass : Q;
  length_top : ext;
  slope : Q * Q;
  loc_equip : option (Q * Q)
}.

(** What one activation of [install] does: it returns, it raises, or it
    calls itself once more (the slope fallback), whose value it returns. *)
Inductive outcome : Type :=
| Return (b : bool)
| Throw (e : exn)
| Fallback (a : install_args).

(** [ymax > (self.waterlvl + self.h_dry) and not install and slope != (0,0)] *)
Definition fallback_due (w h_dry : Q) (a : install_args) (install : bool) : bool :=
  Qgtb (ymax a) (w + h_dry) && negb install
  && negb (Qeq_bool (fst (slope a)) 0 && Qeq_bool (snd (slope a)) 0).

(** The recursive call of the slope fallback; [H/V] divides Python numbers. *)
Definition slope_fallback (w h_dry : Q) (a : install_args) : outcome :=
  let dy := ymax a - (w + h_dry) in
  let '(V, H) := slope a in
  if Qeq_bool V 0 then Throw ZeroDivisionError
  else
    let xmax_top' := xmax_top a - H / V * dy in
    Fallback {| layer := layer a;
                grading_layer := grading_layer a;
                ymax := w + h_dry;
                section_coords := section_coords a;
                xmax_top := xmax_top';
                mass := mass a;
                length_top := Fin (2 * Qabs xmax_top');
                slope := slope a;
                loc_equip := None |}.

(** [install] from the body of one activation; [None] when the calls nest
    deeper than [fuel]. *)
Fixpoint run_install (body : install_args -> outcome) (fuel : nat) (a : install_args)
    : option (result bool) :=
  match fuel with
  | O => None
  | S n =>
      match body a with
      | Return b => Some (Ok b)
      | Throw e => Some (Raise e)
      | Fallback a' => run_install body n a'
      end
  end.

(** ** class Excavator *)

Record chart_row : Type := { row_x : list Q; row_w : list Q }.

Record Excavator : Type := {
  exc_base : Equipment;
  exc_loading_chart : list (Q * chart_row);
  exc_h_dry : Q;
  exc_offset : Q;
  exc_required_length : Q
}.

(** [np.where(mask)[0]] and fancy indexing [x[idx]]. *)
Fixpoint np_where_from (i : nat) (mask : list bool) : list nat :=
  match mask with
  | [] => []
  | b :: mask' => if b then i :: np_where_from (S i) mask' else np_where_from (S i) mask'
  end.

Definition np_where (mask : list bool) : list nat := np_where_from 0 mask.

Definition np_take (x : list Q) (idx : list nat) : result (list Q) :=
  mapM (fun i => match x !! i with Some v => Ok v | None => Raise IndexError end) idx.

(** The chart row nearest to elevation [d_y] on its side; [None] is the
    [return False] of the loop. *)
Definition nearest_row (yload_chart : list Q) (d_y : Q) : option Q :=
  if Qltb d_y 0 then
    match List.filter (fun k => Qle_bool k d_y) yload_chart with
    | [] => None
    | k :: r => Some (Qmax_from k r)
    end
  else
    match List.filter (fun k => Qgeb k d_y) yload_chart with
    | [] => None
    | k :: r => Some (Qmin_from k r)
    end.

(** The section's x-coordinate nearest to the equipment at elevation [y]. *)
Definition xlevel (section_coords : list coord) (flip : bool) (y : Q) : result Q :=
  let xs := map fst (List.filter (fun c => Qeq_bool (snd c) y) section_coords) in
  if flip then py_max xs else py_min xs.

(** Is there a reach at chart row [y] whose payload suffices and that
    extends to [x]? *)
Definition reach_at (load_chart : list (Q * chart_row)) (mass x y : Q) : result bool :=
  match dict_get y load_chart with
  | None => Raise KeyError
  | Some items =>
      let masses := row_w items in
      xreaches ← np_take (row_x items) (np_where (map (fun m => Qgeb m mass) masses));
      let xdiff := map (fun r => Qabs r - Qabs x) xreaches in
      Ok (existsb (fun d => Qgeb d 0) xdiff)
  end.

(** The ring of [Excavator.chart_location]: the near ends of the rows by
    ascending elevation, then the far ends by descending elevation. *)
Definition chart_ring (self : Excavator) (xloc_equip yloc_equip : Q) : result (list coord) :=
  ends ← mapM (fun '(key, items) =>
                 xmin ← py_max (row_x items);
                 xmax ← py_min (row_x items);
                 Ok ((xmax + xloc_equip, key + yloc_equip),
                     (xmin + xloc_equip, key + yloc_equip)))
              (exc_loading_chart self);
  let points_max := map fst ends in
  let points_min := map snd ends in
  Ok (sorted (fun p q => Qle_bool (snd p) (snd q)) points_max
      ++ sorted (fun p q => Qgeb (snd p) (snd q)) points_min).

(** One pass of the loops that rebuild the chart at the equipment's
    location: [loadingchart[key + yloc_equip] = {"x": ..., "w": ...}]. *)
Definition translate_row (fx : Q -> Q) (yloc_equip : Q) (d : list (Q * chart_row))
    (row : Q * chart_row) : list (Q * chart_row) :=
  let '(key, items) := row in
  dict_set (key + yloc_equip) {| row_x := map fx (row_x items); row_w := row_w items |} d.

Definition translate_chart (self : Excavator) (fx : Q -> Q) (yloc_equip : Q)
    : list (Q * chart_row) :=
  fold_left (translate_row fx yloc_equip) (exc_loading_chart self) [].

Definition rotate_loading_chart (self : Excavator) (points_chart : list coord)
    (xloc_equip yloc_equip : Q) : result (list coord * list (Q * chart_row)) :=
  '(x, y) ← unzip_coords points_chart;
  let new_points :=
    map (fun p => (fst p - 2 * Qabs (fst p - xloc_equip), snd p)) points_chart in
  Ok (new_points,
      translate_chart self (fun x => x - 2 * (x - xloc_equip) - xloc_equip) yloc_equip).

(** The ring handed to shapely and the chart in absolute coordinates. *)
Definition chart_polygon (self : Excavator) (xloc_equip yloc_equip : Q) (flip : bool)
    : result (list coord * list (Q * chart_row)) :=
  points ← chart_ring self xloc_equip yloc_equip;
  if flip then rotate_loading_chart self points xloc_equip yloc_equip
  else Ok (points, translate_chart self (fun x => x + xloc_equip) yloc_equip).

(** Where the equipment stands: given by the caller, or resolved on land. *)
Definition install_location (offset : Q) (a : install_args) : result (Q * Q * bool) :=
  match loc_equip a with
  | None => location_equipment [offset] (xmax_top a) (section_coords a) false 0 0 (ymax a)
  | Some (x, y) => Ok (x, y, false)
  end.

Section Reach.

(** shapely: [Polygon(ring)], [Polygon(section)] and [section.within(chart)]. *)
Variable Polygon_within : list coord -> list coord -> result bool.

Definition chart_location (self : Excavator) (xloc_equip yloc_equip : Q)
    (section_coords : list coord) (flip : bool) : result (bool * list (Q * chart_row)) :=
  '(ring, loadingchart) ← chart_polygon self xloc_equip yloc_equip flip;
  within ← Polygon_within ring section_coords;
  Ok (within, loadingchart).

(** [Excavator.install] up to [all_reach]; [Ok None] is the early
    [return False] taken when an elevation has no chart row. *)
Definition Excavator_reach (self : Excavator) (a : install_args)
    : result (option (list bool)) :=
  '(x_section, y_section) ← unzip_coords (section_coords a);
  '(xloc_equip, yloc_equip, flip) ← install_location (exc_offset self) a;
  let dy := np_unique y_section in
  '(within, load_chart) ←
    chart_location self xloc_equip yloc_equip (section_coords a) flip;
  match mapM (nearest_row (map fst load_chart)) dy with
  | None => Ok None
  | Some ychart =>
      xlevels ← mapM (xlevel (section_coords a) flip) dy;
      all_reach ← mapM (fun xy => reach_at load_chart (mass a) (fst xy) (snd xy))
                       (zip xlevels ychart);
      Ok (Some all_reach)
  end.

(** The decision of lines 682-688. *)
Definition Excavator_feasible (self : Excavator) (a : install_args)
    (y_start : Q) (all_reach : list bool) : bool :=
  let w := waterlvl (exc_base self) in
  has_grading (exc_base self) (grading_layer a)
  && (Qgeb (y_start - w) (exc_h_dry self)
      || (Qgeb (ymax a - w) (exc_h_dry self)
          && forallb id all_reach
          && ext_geb (length_top a) (exc_required_length self))).

Definition Excavator_install_body (self : Excavator) (a : install_args) : outcome :=
  match Excavator_reach self a with
  | Raise e => Throw e
  | Ok None => Return false
  | Ok (Some all_reach) =>
      match py_min (map snd (section_coords a)) with
      | Raise e => Throw e
      | Ok y_start =>
          let install := Excavator_feasible self a y_start all_reach in
          let w := waterlvl (exc_base self) in
          if fallback_due w (exc_h_dry self) a install
          then slope_fallback w (exc_h_dry self) a
          else Return install
      end
  end.

(** [Excavator.install] *)
Definition Excavator_install (fuel : nat) (self : Excavator) (a : install_args)
    : option (result bool) :=
  run_install (Excavator_install_body self) fuel a.

End Reach.

(** ** class Crane

    The loading chart is a DataFrame indexed by radius with one column per
    boom length; it is kept in stacked form: per radius, the cells
    (boom length, capacity) that are not NaN. *)

Record Crane : Type := {
  crane_base : Equipment;
  crane_loading_chart : list (Q * list (Q * Q));
  crane_h_dry : Q;
  crane_offset : Q;
  crane_required_length : Q
}.

(** [radii[radii >= max_dist_x].min()]: pandas gives NaN ([None]) for an
    empty index. *)
Definition select_radius (radii : list Q) (max_dist_x : Q) : option Q :=
  match List.filter (fun r => Qgeb r max_dist_x) radii with
  | [] => None
  | r :: rs => Some (Qmin_from r rs)
  end.

(** [df.stack()] of the rows at radius [r], then [df[df >= mass]]:
    entries ((radius, boom length), capacity).  NaN equals no radius. *)
Definition stacked_at (chart : list (Q * list (Q * Q))) (r : option Q) (mass : Q)
    : list (coord * Q) :=
  match r with
  | None => []
  | Some r =>
      List.filter (fun e => Qgeb (snd e) mass)
        (flat_map (fun row => map (fun cell => ((fst row, fst cell), snd cell)) (snd row))
                  (List.filter (fun row => Qeq_bool (fst row) r) chart))
  end.

(** Lines 1158-1175: [(M_max, r, l_boom)]. *)
Definition Crane_lift (self : Crane) (max_dist_x mass : Q) : ext * Q * Q :=
  let r := select_radius (map fst (crane_loading_chart self)) max_dist_x in
  match stacked_at (crane_loading_chart self) r mass with
  | [] => (NegInf, 0, 0)
  | e :: df =>
      let '(r, l_boom) := tuple_max_from (fst e) (map fst df) in
      (Fin (Qmax_from (snd e) (map snd df)), r, l_boom)
  end.

(** The decision of lines 1181-1187. *)
Definition Crane_feasible (self : Crane) (a : install_args)
    (y_start : Q) (M_max : ext) (h_le_hmax : bool) : bool :=
  let w := waterlvl (crane_base self) in
  has_grading (crane_base self) (grading_layer a)
  && (Qgeb (y_start - w) (crane_h_dry self)
      || (Qgeb (ymax a - w) (crane_h_dry self)
          && le_ext (mass a) M_max
          && h_le_hmax
          && ext_geb (length_top a) (crane_required_length self))).

(** The equipment's elevation and its largest horizontal distance to the
    section. *)
Definition Crane_max_dist (self : Crane) (a : install_args) : result (Q * Q) :=
  '(x_section, y_section) ← unzip_coords (section_coords a);
  '(xloc_equip, yloc_equip, flip) ← install_location (crane_offset self) a;
  max_dist_x ← py_max (map (fun x => Qabs (x - xloc_equip)) x_section);
  Ok (yloc_equip, max_dist_x).

(** [Crane.install] up to the decision: [(M_max, install)]. *)
Definition Crane_direct (self : Crane) (a : install_args) : result (ext * bool) :=
  '(x_section, y_section) ← unzip_coords (section_coords a);
  y_start ← py_min y_section;
  y_end ← py_max y_section;
  '(yloc_equip, max_dist_x) ← Crane_max_dist self a;
  let '(M_max, r, l_boom) := Crane_lift self max_dist_x (mass a) in
  let h := yloc_equip - y_end in
  Ok (M_max, Crane_feasible self a y_start M_max (le_sqrt h (l_boom * l_boom - r * r))).

Definition Crane_install_body (self : Crane) (a : install_args) : outcome :=
  match Crane_direct self a with
  | Raise e => Throw e
  | Ok (M_max, install) =>
      let w := waterlvl (crane_base self) in
      if fallback_due w (crane_h_dry self) a install
      then slope_fallback w (crane_h_dry self) a
      else Return install
  end.

(** [Crane.install] *)
Definition Crane_install (fuel : nat) (self : Crane) (a : install_args)
    : option (result bool) :=
  run_install (Crane_install_body self) fuel a.

(** ** Calls by keyword

    [Barge.install] calls [self.instance.install(layer=..., ...)] on
    whatever is mounted, so the keywords meet the signature of the class
    only when the call is made.  Python raises TypeError for a keyword the
    signature does not have and for a parameter without default that is
    not given. *)

Inductive pyval : Type :=
| PStr (s : string)
| PNum (q : ext)
| PCoords (l : list coord).

Definition kw_lookup (k : string) (kw : list (string * pyval)) : option pyval :=
  snd <$> List.find (fun p => String.eqb (fst p) k) kw.

Definition kw_accepted (params : list string) (kw : list (string * pyval)) : bool :=
  forallb (fun p => existsb (String.eqb (fst p)) params) kw.

Definition kw_str (k : string) (kw : list (string * pyval)) : option string :=
  match kw_lookup k kw with Some (PStr s) => Some s | _ => None end.

Definition kw_num (k : string) (kw : list (string * pyval)) : option Q :=
  match kw_lookup k kw with Some (PNum (Fin q)) => Some q | _ => None end.

Definition kw_ext (k : string) (kw : list (string * pyval)) : option ext :=
  match kw_lookup k kw with Some (PNum q) => Some q | _ => None end.

Definition kw_coords (k : string) (kw : list (string * pyval)) : option (list coord) :=
  match kw_lookup k kw with Some (PCoords l) => Some l | _ => None end.

Local Open Scope string_scope.

(** [def install(self, layer, grading_layer, ymax, section_coords,
    length_top, plot=False)] *)
Definition Truck_install_kw (self : Truck) (kw : list (string * pyval))
    : result bool * Truck :=
  if kw_accepted ["layer"; "grading_layer"; "ymax"; "section_coords"; "length_top"; "plot"] kw
  then
    match kw_str "layer" kw, kw_str "grading_layer" kw, kw_num "ymax" kw,
          kw_coords "section_coords" kw, kw_ext "length_top" kw with
    | Some layer, Some grading_layer, Some ymax, Some section_coords, Some length_top =>
        Truck_install self layer grading_layer ymax section_coords length_top
    | _, _, _, _, _ => (Raise TypeError, self)
    end
  else (Raise TypeError, self).

(** [def install(self, layer, grading_layer, ymax, section_coords,
    level=None, plot=False)] *)
Definition PlateFeeder_install_kw (self : PlateFeeder) (kw : list (string * pyval))
    : result bool :=
  if kw_accepted ["layer"; "grading_layer"; "ymax"; "section_coords"; "level"; "plot"] kw
  then
    match kw_str "layer" kw, kw_str "grading_layer" kw, kw_num "ymax" kw,
          kw_coords "section_coords" kw with
    | Some layer, Some grading_layer, Some ymax, Some section_coords =>
        match kw_lookup "level" kw with
        | None => PlateFeeder_install self layer grading_layer ymax section_coords None
        | Some (PNum (Fin level)) =>
            PlateFeeder_install self layer grading_layer ymax section_coords (Some level)
        | Some _ => Raise TypeError
        end
    | _, _, _, _ => Raise TypeError
    end
  else Raise TypeError.

(** ** class Barge *)

Inductive instrument : Type :=
| ICrane (c : Crane)
| IExcavator (e : Excavator)
| IPlateFeeder (p : PlateFeeder)
| ITruck (t : Truck)
| IOther (e : Equipment).          (* any other Equipment, e.g. a Vessel *)

Definition instrument_base (i : instrument) : Equipment :=
  match i with
  | ICrane c => crane_base c
  | IExcavator e => exc_base e
  | IPlateFeeder p => feeder_base p
  | ITruck t => truck_base t
  | IOther e => e
  end.

Record Barge : Type := {
  barge_base : Equipment;
  barge_instance : instrument;
  barge_installation_waterdepth : Q;
  barge_height : Q;
  barge_margin_x : Q;
  barge_ukc : Q
}.

Definition set_instance (i : instrument) (b : Barge) : Barge :=
  {| barge_base := barge_base b;
     barge_instance := i;
     barge_installation_waterdepth := barge_installation_waterdepth b;
     barge_height := barge_height b;
     barge_margin_x := barge_margin_x b;
     barge_ukc := barge_ukc b |}.

(** [d['cost']] on a dict of costs. *)
Definition item {V : Type} (d : gmap string V) (k : string) : result V :=
  match d !! k with Some v => Ok v | None => Raise KeyError end.

Definition add_costs (a b : gmap string Q) : result (gmap string Q) :=
  ac ← item a "cost"; bc ← item b "cost";
  ao ← item a "CO2"; bo ← item b "CO2";
  Ok {[ "cost" := ac + bc; "CO2" := ao + bo ]}.

(** One entry of the Barge's own [design_type]. *)
Definition barge_entry (extra_cost downtime_production : Q) (d : gmap string Q)
    : option (gmap string Q) :=
  c ← d !! "cost"; o ← d !! "CO2"; p ← d !! "production_rate";
  Some {[ "cost" := c + extra_cost; "CO2" := o;
          "production_rate" := p - downtime_production ]}.

(** [Barge.__init__]; the [design_type] argument is overwritten by the
    mapping derived from the mounted instrument. *)
Definition Barge_init (name' : string) (waterlvl' : Q) (other : instrument)
    (installation_waterdepth height downtime_production extra_cost : Q)
    (ukc : option Q) (margin_x : Q) (design_type' : option (gmap string (gmap string Q)))
    (mobilisation_cost' equipment_cost' : option (gmap string Q)) : result Barge :=
  let base := Equipment_init name' (default ∅ design_type') waterlvl'
                             equipment_cost' mobilisation_cost' in
  mob ← add_costs (mobilisation_cost base) (mobilisation_cost (instrument_base other));
  equ ← add_costs (equipment_cost base) (equipment_cost (instrument_base other));
  let entries := design_type (instrument_base other) in
  if bool_decide (map_Forall (fun _ d => is_Some (barge_entry extra_cost downtime_production d))
                             entries)
  then
    Ok {| barge_base := {| name := name';
                           design_type :=
                             omap (barge_entry extra_cost downtime_production) entries;
                           mobilisation_cost := mob;
                           equipment_cost := equ;
                           waterlvl := waterlvl' |};
          barge_instance := other;
          barge_installation_waterdepth := installation_waterdepth;
          barge_height := height;
          barge_margin_x := margin_x;
          barge_ukc := default 0 ukc |}
  else Raise KeyError.

(** [self.instance.waterlvl = self.waterlvl; self.instance.h_dry = 0] *)
Definition reparent_crane (w : Q) (c : Crane) : Crane :=
  {| crane_base := set_waterlvl w (crane_base c);
     crane_loading_chart := crane_loading_chart c;
     crane_h_dry := 0;
     crane_offset := crane_offset c;
     crane_required_length := crane_required_length c |}.

Definition reparent_excavator (w : Q) (e : Excavator) : Excavator :=
  {| exc_base := set_waterlvl w (exc_base e);
     exc_loading_chart := exc_loading_chart e;
     exc_h_dry := 0;
     exc_offset := exc_offset e;
     exc_required_length := exc_required_length e |}.

Section Platform.

Variable Polygon_within : list coord -> list coord -> result bool.

(** The arguments every delegated [install] of a Crane or Excavator gets:
    the deck as [ymax], an infinite [length_top], [slope=(0, 0)]. *)
Definition mounted_args (layer grading_layer : string) (deck : Q)
    (section_coords : list coord) (xmax_top mass : Q) (loc : Q * Q) : install_args :=
  {| layer := layer;
     grading_layer := grading_layer;
     ymax := deck;
     section_coords := section_coords;
     xmax_top := xmax_top;
     mass := mass;
     length_top := PosInf;
     slope := (0, 0);
     loc_equip := Some loc |}.

(** The keywords of the call of lines 1586-1592. *)
Definition deck_keywords (layer grading_layer : string) (deck : Q)
    (section_coords : list coord) : list (string * pyval) :=
  [ ("layer", PStr layer); ("grading_layer", PStr grading_layer);
    ("ymax", PNum (Fin deck)); ("section_coords", PCoords section_coords);
    ("level", PNum (Fin deck)) ].

(** Lines 1529-1584: the section reaches into the floating clearance. *)
Definition Barge_near (fuel : nat) (self : Barge) (inst : instrument)
    (call : Q * Q -> install_args) (slope : Q * Q) (section_coords : list coord)
    (xtop y_end : Q) (install : bool) : option (result bool * instrument) :=
  let w := waterlvl (barge_base self) in
  let y_installation_waterdepth := w - barge_installation_waterdepth self in
  let '(V, H) := slope in
  let locate (offset : Q) : result (Q * Q * bool) :=
    if Qeq_bool V 0 then Raise ZeroDivisionError
    else location_equipment
           [(y_end - y_installation_waterdepth) * H / V; barge_margin_x self; offset]
           xtop section_coords true y_installation_waterdepth (barge_height self) 0 in
  if Qgeb y_end (y_installation_waterdepth - barge_ukc self) then
    match inst with
    | ICrane c =>
        match locate (crane_offset c) with
        | Raise e => Some (Raise e, inst)
        | Ok (xequip, yequip, flip) =>
            let c' := reparent_crane w c in
            r ← Crane_install fuel c' (call (xequip, yequip));
            Some (r, ICrane c')
        end
    | IExcavator e =>
        match locate (exc_offset e) with
        | Raise e' => Some (Raise e', inst)
        | Ok (xequip, yequip, flip) =>
            let e' := reparent_excavator w e in
            r ← Excavator_install Polygon_within fuel e' (call (xequip, yequip));
            Some (r, IExcavator e')
        end
    | _ => Some (Ok install, inst)
    end
  else Some (Ok install, inst).

(** Lines 1585-1628: the [if ... else] that follows, whatever the
    clearance test said. *)
Definition Barge_deck (fuel : nat) (self : Barge) (inst : instrument)
    (call : Q * Q -> install_args) (kw : list (string * pyval))
    (x_section : list Q) (install : bool) : option (result bool * instrument) :=
  let w := waterlvl (barge_base self) in
  let y_installation_waterdepth := w - barge_installation_waterdepth self in
  match inst with
  | IPlateFeeder p => Some (PlateFeeder_install_kw p kw, inst)
  | ITruck t => let '(r, t') := Truck_install_kw t kw in Some (r, ITruck t')
  | ICrane c =>
      match (lo ← py_min x_section; hi ← py_max x_section; Ok ((lo + hi) / 2)) with
      | Raise e => Some (Raise e, inst)
      | Ok xequip =>
          r ← Crane_install fuel c
                (call (xequip, y_installation_waterdepth + barge_height self));
          Some (match r with Ok _ => Ok true | Raise e => Raise e end, inst)
      end
  | IExcavator e =>
      match py_max x_section with
      | Raise e' => Some (Raise e', inst)
      | Ok xequip =>
          let yequip := y_installation_waterdepth + barge_height self in
          let e' := reparent_excavator w e in
          r ← Excavator_install Polygon_within fuel e' (call (xequip, yequip));
          Some (r, IExcavator e')
      end
  | IOther _ => Some (Ok install, inst)
  end.

(** [Barge.install]: the decision and the Barge with its mounted
    instrument as the call leaves it. *)
Definition Barge_install (fuel : nat) (self : Barge) (layer grading_layer : string)
    (slope : Q * Q) (section_coords : list coord) (xmax_top mass : Q)
    : option (result bool * Barge) :=
  let inst := barge_instance self in
  let w := waterlvl (barge_base self) in
  match (xtop ← py_max_tuple section_coords;
         '(x_section, y_section) ← unzip_coords section_coords;
         y_end ← py_max y_section;
         Ok (fst xtop, x_section, y_end)) with
  | Raise e => Some (Raise e, self)
  | Ok (xtop, x_section, y_end) =>
      let deck := w + barge_height self in
      let call := mounted_args layer grading_layer deck section_coords xmax_top mass in
      if has_grading (instrument_base inst) grading_layer then
        '(r1, inst1) ← Barge_near fuel self inst call slope section_coords xtop y_end false;
        match r1 with
        | Raise e => Some (Raise e, set_instance inst1 self)
        | Ok install1 =>
            '(r2, inst2) ← Barge_deck fuel self inst1 call
                             (deck_keywords layer grading_layer deck section_coords)
                             x_section install1;
            Some (r2, set_instance inst2 self)
        end
      else Some (Ok false, self)
  end.

End Platform.

(** ** Prices

    [Equipment.get_price]: the price per cubic metre is an entry of the
    grading when the grading has a ['cost'], and the hourly figure over the
    production rate otherwise. *)

Definition get_price (self : Equipment) (layer grading_layer key : string) : result Q :=
  match design_type self !! grading_layer with
  | None => Raise KeyError
  | Some d =>
      if bool_decide (is_Some (d !! "cost")) then item d key
      else
        hourly ← item (equipment_cost self) key;
        rate ← item d "production_rate";
        if Qeq_bool rate 0 then Raise ZeroDivisionError else Ok (hourly / rate)
  end.

(** ** The excavators with a built-in loading chart *)

(** [Excavator.__init__]; [offset] is 3 by default. *)
Definition Excavator_init (name' : string) (design_type' : gmap string (gmap string Q))
    (waterlvl' : Q) (loading_chart : list (Q * chart_row)) (h_dry required_length : Q)
    (mobilisation_cost' equipment_cost' : option (gmap string Q)) (offset : option Q)
    : Excavator :=
  {| exc_base := Equipment_init name' design_type' waterlvl'
                                equipment_cost' mobilisation_cost';
     exc_loading_chart := loading_chart;
     exc_h_dry := h_dry;
     exc_offset := default 3 offset;
     exc_required_length := required_length |}.

Definition Caterpillar345_chart : list (Q * chart_row) :=
  [
    (9, {| row_x := [7.5];
          row_w := [6.88] |});
    (7.5, {| row_x := [7.5];
          row_w := [7.83] |});
    (6, {| row_x := [7.5; 9.0];
          row_w := [8.41; 6.88] |});
    (4.5, {| row_x := [4.5; 6.0; 7.5; 9.0];
          row_w := [15.09; 11.32; 9.32; 6.72] |});
    (3, {| row_x := [4.5; 6.0; 7.5; 9.0];
          row_w := [18.88; 12.89; 8.95; 6.49] |});
    (1.5, {| row_x := [4.5; 6.0; 7.5; 9.0];
          row_w := [18.62; 12.13; 8.53; 6.27] |});
    (0, {| row_x := [4.5; 6.0; 7.5; 9.0];
          row_w := [18.32; 11.66; 8.23; 6.09] |});
    ((-1.5), {| row_x := [3; 4.5; 6.0; 7.5; 9.0];
          row_w := [12.98; 18.25; 11.46; 8.08; 6.02] |});
    ((-3), {| row_x := [3; 4.5; 6.0; 7.5];
          row_w := [20.08; 18.45; 11.5; 8.09] |});
    ((-4.5), {| row_x := [3; 4.5; 6.0; 7.5];
          row_w := [20.75; 15.74; 11.76; 8.33] |})
  ].

Definition HITACHI_EX1200_chart : list (Q * chart_row) :=
  [
    (22, {| row_x := [16; 18];
          row_w := [15.5; 13.0] |});
    (20, {| row_x := [18; 20];
          row_w := [15.1; 12.0] |});
    (18, {| row_x := [18; 20];
          row_w := [16.5; 14.3] |});
    (16, {| row_x := [18; 20; 22];
          row_w := [17.7; 16.0; 13.0] |});
    (14, {| row_x := [16; 20; 24];
          row_w := [19.8; 17.3; 10.7] |});
    (12, {| row_x := [14; 18; 22];
          row_w := [21.5; 19.2; 15.9] |});
    (10, {| row_x := [12; 16; 20; 24];
          row_w := [23.6; 21.8; 17.6; 14.4] |});
    (8, {| row_x := [10; 14; 18; 22; 26];
          row_w := [34.7; 25.4; 19.7; 16.0; 10.8] |});
    (6, {| row_x := [12; 16; 20; 24];
          row_w := [30.7; 22.6; 17.7; 14.3] |});
    (4, {| row_x := [11; 14; 18; 22; 26];
          row_w := [28.2; 26.4; 20.0; 15.8; 11.4] |});
    (2, {| row_x := [12; 16; 20; 24];
          row_w := [28.6; 22.8; 17.6; 13.8] |});
    (0, {| row_x := [10; 14; 18; 22; 26];
          row_w := [6.9; 26.1; 19.6; 15.2; 11.2] |});
    ((-2), {| row_x := [12; 14; 18; 22];
          row_w := [17; 21.8; 16.7; 12.4] |});
    ((-4), {| row_x := [10; 14; 18; 22; 25];
          row_w := [8.7; 23.9; 18.1; 13.5; 10.0] |});
    ((-6), {| row_x := [8; 12; 16; 20; 24];
          row_w := [6.5; 18.8; 19.2; 14.4; 9.4] |});
    ((-8), {| row_x := [10; 14; 18; 22];
          row_w := [13.2; 19.5; 14.8; 10.1] |});
    ((-10), {| row_x := [10; 14; 18; 22];
          row_w := [15.9; 16.3; 12.3; 6.8] |});
    ((-12), {| row_x := [14; 16];
          row_w := [12.4; 8.7] |})
  ].

Definition HITACHI_EX1900_chart : list (Q * chart_row) :=
  [
    (10, {| row_x := [30];
          row_w := [16.8] |});
    (8, {| row_x := [28; 32];
          row_w := [21.1; 13.3] |});
    (6, {| row_x := [26; 30; 32];
          row_w := [23; 20.3; 14.0] |});
    (4, {| row_x := [20; 24; 28; 30; 32];
          row_w := [30.4; 25.4; 22.0; 20.2; 14.5] |});
    (2, {| row_x := [14; 18; 22; 26; 28; 30; 32];
          row_w := [47; 33.9; 28.5; 24; 22.3; 20.8; 14.7] |});
    (0, {| row_x := [16; 20; 24; 26; 28; 30; 32];
          row_w := [41.8; 32.4; 26.6; 24.4; 22.6; 21; 14.5] |});
    ((-2), {| row_x := [14; 18; 22; 26; 28; 30; 32];
          row_w := [43.9; 37.4; 29.8; 24.7; 22.8; 21.0; 14.5] |});
    ((-4), {| row_x := [12; 16; 20; 24; 26; 28; 30; 31];
          row_w := [16.6; 43.6; 33.6; 27.3; 24.9; 22.8; 21.3; 15.4] |});
    ((-6), {| row_x := [10; 14; 18; 22; 24; 26; 28; 30];
          row_w := [11.4; 37.7; 38.2; 30; 27.3; 24.8; 22.6; 19.4] |});
    ((-8), {| row_x := [8; 12; 16; 20; 22; 24; 26; 28; 30];
          row_w := [9.6; 18.5; 43.4; 33.6; 30.1; 27.1; 24.4; 22; 17.9] |});
    ((-10), {| row_x := [6; 10; 14; 18; 20; 22; 24; 26; 27.5; 29];
          row_w := [9.2; 14.8; 29.3; 37.2; 33.0; 29.4; 26.4; 23.7; 21.7; 19.5] |});
    ((-12), {| row_x := [8; 12; 16; 18; 20; 22; 24; 26; 28];
          row_w := [13.2; 22; 40.8; 35.9; 31.8; 28.3; 25.2; 22.3; 19.8] |});
    ((-14), {| row_x := [10; 14; 16; 18; 20; 22; 24; 26];
          row_w := [18.6; 34.4; 38.4; 33.9; 30.3; 26.5; 23.3; 19.9] |});
    ((-16), {| row_x := [12; 14; 16; 18; 20; 22; 24];
          row_w := [27.1; 39.1; 35.0; 30.8; 27.1; 23.7; 20.1] |});
    ((-18), {| row_x := [14; 16; 18; 20; 22];
          row_w := [35.8; 30.6; 26.6; 23.4; 20.9] |})
  ].

Definition Caterpillar345 (name' : string) (design_type' : gmap string (gmap string Q))
    (waterlvl' h_dry required_length : Q)
    (mobilisation_cost' equipment_cost' : option (gmap string Q)) (offset : option Q)
    : Excavator :=
  Excavator_init name' design_type' waterlvl' Caterpillar345_chart h_dry required_length
                 mobilisation_cost' equipment_cost' offset.

Definition HITACHI_EX1200 (name' : string) (design_type' : gmap string (gmap string Q))
    (waterlvl' h_dry required_length : Q)
    (mobilisation_cost' equipment_cost' : option (gmap string Q)) (offset : option Q)
    : Excavator :=
  Excavator_init name' design_type' waterlvl' HITACHI_EX1200_chart h_dry required_length
                 mobilisation_cost' equipment_cost' offset.

Definition HITACHI_EX1900 (name' : string) (design_type' : gmap string (gmap string Q))
    (waterlvl' h_dry required_length : Q)
    (mobilisation_cost' equipment_cost' : option (gmap string Q)) (offset : option Q)
    : Excavator :=
  Excavator_init name' design_type' waterlvl' HITACHI_EX1900_chart h_dry required_length
                 mobilisation_cost' equipment_cost' offset.

(** ** Crude Monte Carlo ([Probabilistics/probabilistics.py])

    The z-functions compute with tan, sqrt and powers of floats: they are
    parameters that return the array Z of one value per sample, or
    raise.  [InputError] is the package's own exception. *)

Record mc_frame : Type := {
  col_Pf : Q;                  (* 'Pf' *)
  col_Pf_mc : Q;               (* 'Pf_mc' *)
  col_Pf_lt_Pf_mc : bool       (* 'Pf < Pf_mc' *)
}.

Inductive mc_outcome : Type :=
| Frame (f : mc_frame)
| InputError (zfunc : string)
| Raised (e : exn).

(** [np.where(cond)] with the condition alone: a tuple with one array of
    indices per dimension of [cond]; Z has one dimension. *)
Definition np_where_tuple (mask : list bool) : list (list nat) := [np_where mask].

Section MonteCarlo.

Variable kwargs : Type.
Variables z_vdmeer z_hudson : kwargs -> result (list Q).

Definition MonteCarlo (Pf : Q) (zfunc : string) (kw : kwargs) : mc_outcome :=
  let called :=
    if String.eqb zfunc "VdMeer" then Some (z_vdmeer kw)
    else if String.eqb zfunc "Hudson" then Some (z_hudson kw)
    else None in
  match called with
  | None => InputError zfunc
  | Some (Raise e) => Raised e
  | Some (Ok Z) =>
      let Zabove0 := np_where_tuple (map (fun z => Qgtb z 0) Z) in
      match length Z with
      | O => Raised ZeroDivisionError
      | S _ =>
          let Pf_mc := inject_Z (Z.of_nat (length Zabove0))
                       / inject_Z (Z.of_nat (length Z)) in
          Frame {| col_Pf := Pf; col_Pf_mc := Pf_mc; col_Pf_lt_Pf_mc := Qltb Pf_mc Pf |}
      end
  end.

End MonteCarlo.

(** ** Wave conditions per direction ([Energy_Island/Wave_rose.py]) *)

Record Waverose : Type := { wave_conditions : gmap string (gmap string Q) }.

Definition Waverose_init : Waverose :=
  let '(Hm0_315, Tp_315, Tm_315) := (14.2, 17.6, 13.5) in
  let '(Hm0_270, Tp_270, Tm_270) := (13.9, 16.4, 12.3) in
  let '(Hm0_225, Tp_225, Tm_225) := (12.7, 14.4, 11.1) in
  let '(Hm0_180, Tp_180, Tm_180) := (11.2, 13.7, 10.6) in
  let '(Hm0_135, Tp_135, Tm_135) := (8.40, 10.5, 8.30) in
  let '(Hm0_090, Tp_090, Tm_090) := (7.60, 9.40, 8.00) in
  let '(Hm0_045, Tp_045, Tm_045) := (10.0, 12.3, 9.40) in
  let '(Hm0_000, Tp_000, Tm_000) := (9.60, 13.8, 9.70) in
  {| wave_conditions :=
       {[ "315" := {[ "Hm0" := Hm0_315; "Tp" := Tp_315; "Tm" := Tm_315 ]};
          "270" := {[ "Hm0" := Hm0_315; "Tp" := Tp_315; "Tm" := Tm_315 ]};
          "225" := {[ "Hm0" := Hm0_225; "Tp" := Tp_225; "Tm" := Tm_225 ]};
          "180" := {[ "Hm0" := Hm0_180; "Tp" := Tp_180; "Tm" := Tm_180 ]};
          "135" := {[ "Hm0" := Hm0_135; "Tp" := Tp_135; "Tm" := Tm_135 ]};
          "090" := {[ "Hm0" := Hm0_090; "Tp" := Tp_090; "Tm" := Tm_090 ]};
          "045" := {[ "Hm0" := Hm0_045; "Tp" := Tp_045; "Tm" := Tm_045 ]};
          "000" := {[ "Hm0" := Hm0_000; "Tp" := Tp_000; "Tm" := Tm_000 ]} ]} |}.

Definition wave_direction (self : Waverose) (direction : string) : result (Q * Q * Q) :=
  c ← item (wave_conditions self) direction; hm0 ← item c "Hm0";
  c ← item (wave_conditions self) direction; tp ← item c "Tp";
  c ← item (wave_conditions self) direction; tm ← item c "Tm";
  Ok (hm0, tp, tm).

(** * Vocabulary of the properties *)

(** ** Sides of the structure *)

(** The section lies entirely at non-negative x. *)
Definition right_side (section_coords : list coord) : Prop :=
  Forall (fun c => 0 <= fst c) section_coords.

(** ** Calls that raise nothing *)

(** The call into shapely. *)
Abbreviation geometry := (list coord -> list coord -> result bool).

Definition wf_row (r : chart_row) : bool :=
  negb (bool_decide (row_x r = [])) && bool_decide (length (row_w r) <= length (row_x r))%nat.

(** The chart has a row, and every row has at least one reach and a reach
    for each payload. *)
Definition wf_chart (self : Excavator) : bool :=
  negb (bool_decide (exc_loading_chart self = []))
  && forallb (fun kr => wf_row (snd kr)) (exc_loading_chart self).

(** shapely accepts the section and the chart polygon wherever the
    excavator stands. *)
Definition geometry_accepts (PW : geometry) (self : Excavator) (sec : list coord) : Prop :=
  forall xloc yloc flip ring lc,
    chart_polygon self xloc yloc flip = Ok (ring, lc) -> exists within, PW ring sec = Ok within.


(** The elevation the equipment stands at. *)
Definition standing_level (a : install_args) : Q :=
  match loc_equip a with
  | None => ymax a
  | Some (_, y) => y
  end.

(** ** Chart rows and capacities *)

(** A chart row lies at or beyond elevation [d] on its side: at or below a
    negative elevation, at or above any other; [yloc] is the elevation
    the equipment stands at. *)
Definition row_beyond (chart_keys : list Q) (yloc d : Q) : Prop :=
  (d < 0 /\ exists key, In key chart_keys /\ key + yloc <= d)
  \/ (0 <= d /\ exists key, In key chart_keys /\ d <= key + yloc).

(** Every distinct elevation of the section has a chart row at or beyond
    it on its side. *)
Definition rows_cover (self : Excavator) (a : install_args) : Prop :=
  Forall (row_beyond (map fst (exc_loading_chart self)) (standing_level a))
         (np_unique (map snd (section_coords a))).

(** The lowest point of the section is at least [h] above the water. *)
Definition low_point_dry (w h : Q) (sec : list coord) : bool :=
  match py_min (map snd sec) with
  | Ok y_start => Qgeb (y_start - w) h
  | Raise _ => false
  end.


(** ** Every kind of equipment *)

Inductive equipment : Type :=
| ETruck (t : Truck)
| EPlateFeeder (p : PlateFeeder)
| EExcavator (e : Excavator)
| ECrane (c : Crane)
| EVessel (v : Vessel)
| EBarge (b : Barge).


(** [E.install(...)], each class taking the arguments of its signature. *)
Definition install_of (PW : geometry) (fuel : nat) (E : equipment) (a : install_args)
    (level : option Q) : option (result bool) :=
  match E with
  | ETruck t =>
      Some (fst (Truck_install t (layer a) (grading_layer a) (ymax a) (section_coords a)
                               (length_top a)))
  | EPlateFeeder p =>
      Some (PlateFeeder_install p (layer a) (grading_layer a) (ymax a) (section_coords a) level)
  | EExcavator e => Excavator_install PW fuel e a
  | ECrane c => Crane_install fuel c a
  | EVessel v => Some (Vessel_install v (section_coords a) (layer a) (grading_layer a))
  | EBarge b =>
      fst <$> Barge_install PW fuel b (layer a) (grading_layer a) (slope a)
                            (section_coords a) (xmax_top a) (mass a)
  end.

(** The Barge's mapping has the gradings of its mounted instrument, as
    [Barge.__init__] builds it. *)
Definition mapping_inherited (b : Barge) : Prop :=
  forall g, is_Some (design_type (barge_base b) !! g)
            <-> is_Some (design_type (instrument_base (barge_instance b)) !! g).



(** ** The mounted instrument of a Barge *)

Definition feeder_set_waterlvl (w : Q) (p : PlateFeeder) : PlateFeeder :=
  {| feeder_base := set_waterlvl w (feeder_base p);
     feeder_h_dry := feeder_h_dry p;
     feeder_top_installation := feeder_top_installation p |}.

(** The section reaches into the floating clearance of the platform. *)
Definition clearance_met (self : Barge) (sec : list coord) : bool :=
  match py_max (map snd sec) with
  | Ok y_end =>
      Qgeb y_end (waterlvl (barge_base self) - barge_installation_waterdepth self
                  - barge_ukc self)
  | Raise _ => false
  end.

Definition reparent (w : Q) (i : instrument) : instrument :=
  match i with
  | ICrane c => ICrane (reparent_crane w c)
  | IExcavator e => IExcavator (reparent_excavator w e)
  | _ => i
  end.

(** The paths of [Barge.install] that assign to the mounted instrument. *)
Definition reparents (self : Barge) (g : string) (sec : list coord) : bool :=
  has_grading (instrument_base (barge_instance self)) g
  && match barge_instance self with
     | IExcavator _ => true
     | ICrane _ => clearance_met self sec
     | _ => false
     end.

Definition mounted_h_dry (i : instrument) : option Q :=
  match i with
  | ICrane c => Some (crane_h_dry c)
  | IExcavator e => Some (exc_h_dry e)
  | IPlateFeeder p => Some (feeder_h_dry p)
  | ITruck t => Some (truck_h_dry t)
  | IOther _ => None
  end.

(** ** Examples *)

Definition accepting : geometry := fun _ _ => Ok true.

Definition section_right_side : list coord := [(0, 0); (4, 0); (4, 2); (0, 2)].

Definition loader_without_rate : Equipment :=
  Equipment_init "loader" {[ "HMA_60_300" := {[ "cost" := 10; "CO2" := 1 ]} ]} 0 None None.

Definition armour_gradings : gmap string (gmap string Q) :=
  {[ "HMA_300_1000" := {[ "cost" := 10; "CO2" := 1; "production_rate" := 20 ]} ]}.

Definition crane_mounted : Crane :=
  {| crane_base := Equipment_init "crane" armour_gradings 2 None None;
     crane_loading_chart := [(10, [(20, 5)])];
     crane_h_dry := 1;
     crane_offset := 3;
     crane_required_length := 0 |}.

Definition barge_with_crane : Barge :=
  {| barge_base := Equipment_init "barge" armour_gradings 0 None None;
     barge_instance := ICrane crane_mounted;
     barge_installation_waterdepth := 1;
     barge_height := 1;
     barge_margin_x := 2;
     barge_ukc := 0 |}.

Definition section_submerged : list coord := [(0, -3); (4, -3); (4, 0); (0, 0)].

Definition truck_mounted : Truck :=
  {| truck_base := Equipment_init "truck" armour_gradings 3 None None;
     truck_h_dry := 1;
     truck_required_length := 4;
     truck_level := None |}.

Definition barge_with_truck : Barge :=
  {| barge_base := Equipment_init "barge" armour_gradings 3 None None;
     barge_instance := ITruck truck_mounted;
     barge_installation_waterdepth := 1;
     barge_height := 2;
     barge_margin_x := 2;
     barge_ukc := 0 |}.

Definition section_below_deck : list coord := [(0, 3); (6, 3); (6, 4); (0, 4)].

Definition section_toe : list coord := [(0, -3); (4, -3); (4, -1); (0, -1)].

Definition crane_on_crest : Crane :=
  {| crane_base := Equipment_init "crane" armour_gradings 0 None None;
     crane_loading_chart := [(20, [(25, 10)])];
     crane_h_dry := 0;
     crane_offset := 3;
     crane_required_length := 0 |}.

(** The crane stands 27 m from the section, beyond its only radius. *)
Definition call_from_crest (slope : Q * Q) : install_args :=
  {| layer := "armour";
     grading_layer := "HMA_300_1000";
     ymax := 10;
     section_coords := section_toe;
     xmax_top := 30;
     mass := 5;
     length_top := Fin 10;
     slope := slope;
     loc_equip := None |}.

Definition excavator_two_rows : Excavator :=
  {| exc_base := Equipment_init "excavator" armour_gradings 0 None None;
     exc_loading_chart :=
       [ (0, {| row_x := [2; 5]; row_w := [10; 8] |});
         (-2, {| row_x := [2; 5]; row_w := [10; 8] |}) ];
     exc_h_dry := 0;
     exc_offset := 3;
     exc_required_length := 0 |}.

Definition section_on_top : list coord := [(0, 1); (4, 1); (4, 2); (0, 2)].

(** The excavator stands on the built level [ymax]; its chart rows lie at
    [ymax] and 2 m below. *)
Definition call_on_top (grading : string) (ymax : Q) : install_args :=
  {| layer := "armour";
     grading_layer := grading;
     ymax := ymax;
     section_coords := section_on_top;
     xmax_top := 4;
     mass := 5;
     length_top := Fin 10;
     slope := (1, 2);
     loc_equip := None |}.

(** ** Further examples *)

(** A loader priced by the hour, with a grading that has no rate yet. *)
Definition loader_hourly : Equipment :=
  Equipment_init "loader" {[ "LMA_5_40" := {[ "CO2" := 1 ]} ]} 0
                 (Some {[ "cost" := 120; "CO2" := 30 ]}) None.

(** A Barge built around the mounted crane: downtime 5, surcharge 2. *)
Definition barge_priced : Barge :=
  match Barge_init "barge" 0 (ICrane crane_mounted) 1 1 5 2 None 2 None None None with
  | Ok b => b
  | Raise _ => barge_with_crane
  end.

(** A side stone dumper drawing 3 m. *)
Definition vessel_draft3 : Vessel :=
  {| vessel_base := Equipment_init "dumper" armour_gradings 0 None None;
     vessel_installation_waterdepth := 3;
     vessel_ukc := 0 |}.

Definition feeder_low : PlateFeeder :=
  {| feeder_base := Equipment_init "feeder" armour_gradings 1 None None;
     feeder_h_dry := 1;
     feeder_top_installation := 3 |}.

(** The section reflected in the axis of the structure. *)
Definition mirror_section (sec : list coord) : list coord :=
  map (fun c => (- fst c, snd c)) sec.

Definition section_right_of_axis : list coord := [(1, 0); (4, 0); (4, 2); (1, 2)].

(** A 100 t layer on top of a crest that is dry, far beyond the chart. *)
Definition call_dry (slope : Q * Q) : install_args :=
  {| layer := "armour";
     grading_layer := "HMA_300_1000";
     ymax := 1;
     section_coords := section_on_top;
     xmax_top := 60;
     mass := 100;
     length_top := Fin 0;
     slope := slope;
     loc_equip := None |}.

(** shapely accepts the polygons and finds the section outside the chart. *)
Definition not_within : geometry := fun _ _ => Ok false.

(** Two answers of shapely that differ at most in the value of [within]. *)
Definition same_raises (PW PW' : geometry) : Prop :=
  forall ring sec,
    match PW ring sec, PW' ring sec with
    | Ok _, Ok _ => True
    | Raise x, Raise y => x = y
    | _, _ => False
    end.

(** A chart row and its mirror image in the vertical through [xloc]. *)
Definition mirrored_row (xloc : Q) (r r' : Q * chart_row) : Prop :=
  fst r = fst r'
  /\ row_w (snd r) = row_w (snd r')
  /\ Forall2 (fun x x' => x' == 2 * xloc - x) (row_x (snd r)) (row_x (snd r')).

Definition barge_with_feeder : Barge :=
  {| barge_base := Equipment_init "barge" armour_gradings 3 None None;
     barge_instance := IPlateFeeder feeder_low;
     barge_installation_waterdepth := 1;
     barge_height := 2;
     barge_margin_x := 2;
     barge_ukc := 0 |}.

Definition barge_with_excavator : Barge :=
  {| barge_base := Equipment_init "barge" armour_gradings 0 None None;
     barge_instance := IExcavator excavator_two_rows;
     barge_installation_waterdepth := 1;
     barge_height := 1;
     barge_margin_x := 2;
     barge_ukc := 0 |}.

Definition section_deep : list coord := [(0, -9); (4, -9); (4, -6); (0, -6)].

Definition section_shallow : list coord := [(0, -2); (4, -2); (4, -1); (0, -1)].

Definition barge_with_other : Barge :=
  {| barge_base := Equipment_init "barge" armour_gradings 0 None None;
     barge_instance := IOther (vessel_base vessel_draft3);
     barge_installation_waterdepth := 1;
     barge_height := 1;
     barge_margin_x := 2;
     barge_ukc := 0 |}.

(** A Crane or an Excavator is mounted. *)
Definition reach_mounted (i : instrument) : bool :=
  match i with
  | ICrane _ | IExcavator _ => true
  | _ => false
  end.

Definition call_without_section (slope : Q * Q) : install_args :=
  {| layer := "armour";
     grading_layer := "HMA_300_1000";
     ymax := 1;
     section_coords := [];
     xmax_top := 4;
     mass := 5;
     length_top := Fin 10;
     slope := slope;
     loc_equip := None |}.

(** The lowest and the highest row of a chart. *)
Definition chart_span (chart_keys : list Q) : option (Q * Q) :=
  match chart_keys with
  | [] => None
  | k :: ks => Some (Qmin_from k ks, Qmax_from k ks)
  end.

(** Elevation [d] lies within the rows [lo .. hi] of a chart standing at
    [yloc], on its side. *)
Definition in_span (lo hi yloc d : Q) : Prop :=
  (d < 0 /\ lo + yloc <= d) \/ (0 <= d /\ d <= hi + yloc).

(** The three machines with the lowest and the highest row of their
    charts. *)
Definition machine : Type :=
  string -> gmap string (gmap string Q) -> Q -> Q -> Q ->
  option (gmap string Q) -> option (gmap string Q) -> option Q -> Excavator.

Definition built_in : list (machine * (Q * Q)) :=
  [ (Caterpillar345, (-4.5, 9));
    (HITACHI_EX1200, (-12, 22));
    (HITACHI_EX1900, (-18, 10)) ].

(** The z-function that [zfunc] names returns the array [Z]. *)
Definition selects {kwargs : Type} (z_vdmeer z_hudson : kwargs -> result (list Q))
    (zfunc : string) (kw : kwargs) (Z : list Q) : Prop :=
  (zfunc = "VdMeer" /\ z_vdmeer kw = Ok Z) \/ (zfunc = "Hudson" /\ z_hudson kw = Ok Z).

Definition caterpillar : Excavator :=
  Caterpillar345 "CAT 345" armour_gradings 0 1 5 None None None.

(** Four samples, two of them positive. *)
Definition samples (_ : unit) : result (list Q) := Ok [1; -2; 3; -1].

(** * Properties *)

(** ** Comparisons and builtins *)

Lemma Qgeb_true (a b : Q) : Qgeb a b = true <-> b <= a.
Proof. unfold Qgeb. apply Qle_bool_iff. Qed.

Lemma Qgtb_true (a b : Q) : Qgtb a b = true <-> b < a.
Proof.
  unfold Qgtb. rewrite negb_true_iff, <- not_true_iff_false, Qle_bool_iff.
  split; intros H; [apply Qnot_le_lt, H | apply Qlt_not_le, H].
Qed.

Lemma Qgtb_false (a b : Q) : Qgtb a b = false <-> a <= b.
Proof. unfold Qgtb. rewrite negb_false_iff. apply Qle_bool_iff. Qed.

Lemma Qltb_true (a b : Q) : Qltb a b = true <-> a < b.
Proof. apply (Qgtb_true b a). Qed.

Lemma Qgtb_irrefl (a : Q) : Qgtb a a = false.
Proof. apply Qgtb_false, Qle_refl. Qed.

Lemma unzip_coords_ok (sec : list coord) :
  sec ≠ [] -> unzip_coords sec = Ok (map fst sec, map snd sec).
Proof. destruct sec; [congruence | reflexivity]. Qed.

Lemma unzip_coords_inv (sec : list coord) (xs ys : list Q) :
  unzip_coords sec = Ok (xs, ys) -> sec ≠ [] /\ xs = map fst sec /\ ys = map snd sec.
Proof. destruct sec; simpl; intros H; inversion H; subst; auto. Qed.

Lemma py_min_ok (l : list Q) : l ≠ [] -> exists m, py_min l = Ok m.
Proof. destruct l; [congruence | eauto]. Qed.

Lemma py_max_ok (l : list Q) : l ≠ [] -> exists m, py_max l = Ok m.
Proof. destruct l; [congruence | eauto]. Qed.

Lemma map_nonempty {A B : Type} (f : A -> B) (l : list A) : l ≠ [] -> map f l ≠ [].
Proof. destruct l; [congruence | discriminate]. Qed.

(** ** The placement-location resolver *)

Lemma right_side_forallb (sec : list coord) :
  forallb (fun x => Qgeb x 0) (map fst sec) = true <-> right_side sec.
Proof.
  unfold right_side. rewrite forallb_forall, Forall_forall. split.
  - intros H c Hc. apply Qgeb_true, H, in_map_iff. exists c. split; [reflexivity|].
    apply list_elem_of_In, Hc.
  - intros H x Hx. apply in_map_iff in Hx as (c & <- & Hc).
    apply Qgeb_true, H, list_elem_of_In, Hc.
Qed.

(** C5, as the code has it: on land a section at non-negative x needs no
    mirroring (the flag is false, and true as soon as some x is negative);
    from a Barge the flag is the other way round and the vertical location
    is the waterline-relative installation depth plus the deck height. *)
Theorem location_equipment_side_convention
    (args : list Q) (xpoint : Q) (sec : list coord) (yiw height ymax : Q) :
  sec ≠ [] ->
  (right_side sec ->
     location_equipment args xpoint sec false yiw height ymax
       = Ok (xpoint - Qsum args, ymax, false)
     /\ location_equipment args xpoint sec true yiw height ymax
       = Ok (xpoint + Qsum args, yiw + height, true))
  /\ (~ right_side sec ->
     location_equipment args xpoint sec false yiw height ymax
       = Ok (- xpoint + Qsum args, ymax, true)
     /\ location_equipment args xpoint sec true yiw height ymax
       = Ok (- xpoint - Qsum args, yiw + height, false)).
Proof.
  intros Hne. unfold location_equipment.
  rewrite (unzip_coords_ok _ Hne). cbn [mbind result_bind].
  destruct (forallb (fun x => Qgeb x 0) (map fst sec)) eqn:E.
  - apply right_side_forallb in E. split; [auto | intros H; contradiction].
  - split; [| auto]. intros H. apply right_side_forallb in H. congruence.
Qed.

Lemma location_equipment_side_convention_witness :
  location_equipment [3] 4 section_right_side false 0 0 2 = Ok (4 - Qsum [3], 2, false)
  /\ location_equipment [3] 4 section_right_side true 0 1 2 = Ok (4 + Qsum [3], 0 + 1, true).
Proof.
  apply (location_equipment_side_convention [3] 4 section_right_side 0 1 2).
  - discriminate.
  - repeat constructor; vm_compute; discriminate.
Defined.

(** C5 as stated fails: land-based equipment and a section at
    non-negative x, and the mirror flag is false. *)
Lemma location_equipment_land_right_not_mirrored :
  right_side section_right_side
  /\ exists x y, location_equipment [3] 4 section_right_side false 0 0 2 = Ok (x, y, false).
Proof.
  split.
  - repeat constructor; vm_compute; discriminate.
  - eexists _, _. reflexivity.
Qed.

(** ** Production rate *)

(** C7: with no production-rate entry the method stores the default 1
    and then raises UserWarning, so this call returns nothing; only the
    next call returns 1. *)
Theorem get_production_rate_missing_entry
    (self : Equipment) (layer g : string) (d : gmap string Q) :
  design_type self !! g = Some d ->
  d !! "production_rate" = None ->
  fst (get_production_rate self layer g) = Raise UserWarning
  /\ fst (get_production_rate (snd (get_production_rate self layer g)) layer g) = Ok 1.
Proof.
  intros Hg Hd.
  assert (E : get_production_rate self layer g
              = (Raise UserWarning,
                 set_design_type
                   (<[g := <["production_rate" := 1]> d]> (design_type self)) self)).
  { unfold get_production_rate. rewrite Hg, Hd. reflexivity. }
  rewrite E. cbn [fst snd]. split; [reflexivity|].
  unfold get_production_rate, set_design_type. cbn [design_type].
  rewrite lookup_insert_eq, lookup_insert_eq. reflexivity.
Qed.

Lemma get_production_rate_missing_entry_witness :
  fst (get_production_rate loader_without_rate "core" "HMA_60_300") = Raise UserWarning
  /\ fst (get_production_rate (snd (get_production_rate loader_without_rate "core" "HMA_60_300"))
                              "core" "HMA_60_300") = Ok 1.
Proof.
  apply (get_production_rate_missing_entry loader_without_rate "core" "HMA_60_300"
           {[ "cost" := 10; "CO2" := 1 ]}); reflexivity.
Defined.

(** ** Plate feeder *)

(** With an explicit [level], what the decision depends on. *)
Lemma PlateFeeder_install_level_decision
    (self : PlateFeeder) (layer g : string) (ymax0 : Q) (sec : list coord) (level : Q) :
  sec ≠ [] ->
  exists y_top,
    py_max (map snd sec) = Ok y_top
    /\ PlateFeeder_install self layer g ymax0 sec (Some level)
       = Ok (has_grading (feeder_base self) g
             && (Qgeb level (feeder_h_dry self)
                 && Qle_bool y_top (level + feeder_top_installation self))).
Proof.
  intros Hne. unfold PlateFeeder_install. rewrite (unzip_coords_ok _ Hne).
  destruct (py_min_ok (map snd sec)) as [lo Hlo]; [apply map_nonempty, Hne|].
  destruct (py_max_ok (map snd sec)) as [hi Hhi]; [apply map_nonempty, Hne|].
  exists hi. cbn [mbind result_bind]. rewrite Hlo, Hhi. auto.
Qed.

(** C10: with an explicit [level], the decision of [PlateFeeder.install]
    does not change with [ymax] or with the feeder's water level: two
    calls that differ only in these return the same; the decision is made
    from the grading, [level], [h_dry], [top_installation] and the top
    elevation of the section. *)
Theorem PlateFeeder_install_level_independent
    (self : PlateFeeder) (layer g : string) (ymax1 ymax2 w2 : Q)
    (sec : list coord) (level : Q) :
  PlateFeeder_install self layer g ymax1 sec (Some level)
  = PlateFeeder_install (feeder_set_waterlvl w2 self) layer g ymax2 sec (Some level)
  /\ (forall y_top,
        py_max (map snd sec) = Ok y_top ->
        PlateFeeder_install self layer g ymax1 sec (Some level)
        = Ok (has_grading (feeder_base self) g
              && (Qgeb level (feeder_h_dry self)
                  && Qle_bool y_top (level + feeder_top_installation self)))).
Proof.
  split; [reflexivity|]. intros y_top Htop.
  assert (Hne : sec ≠ []) by (intros ->; discriminate).
  destruct (PlateFeeder_install_level_decision self layer g ymax1 sec level Hne)
    as (y & Hy & ->).
  rewrite Htop in Hy. injection Hy as <-. reflexivity.
Qed.


(** ** The slope fallback *)

Lemma fallback_due_inv (w h : Q) (a : install_args) (i : bool) :
  fallback_due w h a i = true -> w + h < ymax a /\ i = false.
Proof.
  unfold fallback_due. rewrite !andb_true_iff, negb_true_iff.
  intros [[H1 H2] _]. split; [apply Qgtb_true, H1 | exact H2].
Qed.

Lemma fallback_due_at_margin (w h : Q) (a : install_args) (i : bool) :
  ymax a <= w + h -> fallback_due w h a i = false.
Proof.
  intros H. unfold fallback_due. apply Qgtb_false in H. rewrite H. reflexivity.
Qed.

Lemma slope_fallback_inv (w h : Q) (a a' : install_args) :
  slope_fallback w h a = Fallback a' ->
  ymax a' = w + h /\ loc_equip a' = None /\ slope a' = slope a
  /\ section_coords a' = section_coords a /\ grading_layer a' = grading_layer a
  /\ mass a' = mass a.
Proof.
  unfold slope_fallback. destruct (slope a) as [V H] eqn:Es.
  destruct (Qeq_bool V 0); [discriminate|].
  intros E. inversion E; subst; cbn. auto 10.
Qed.



(** A body whose fallback lands where no further fallback is taken runs
    in two activations. *)
Lemma run_install_two (body : install_args -> outcome) (n : nat) (a : install_args) :
  (forall a1 a2, body a = Fallback a1 -> body a1 ≠ Fallback a2) ->
  exists r, run_install body (S (S n)) a = Some r.
Proof.
  intros H. cbn [run_install]. destruct (body a) as [b|e|a1] eqn:E; eauto.
  specialize (H a1). destruct (body a1) as [b|e|a2] eqn:E1; eauto.
  exfalso. apply (H a2); reflexivity.
Qed.

Lemma Crane_fallback_inv (c : Crane) (a a' : install_args) :
  Crane_install_body c a = Fallback a' ->
  waterlvl (crane_base c) + crane_h_dry c < ymax a
  /\ slope_fallback (waterlvl (crane_base c)) (crane_h_dry c) a = Fallback a'.
Proof.
  unfold Crane_install_body. destruct (Crane_direct c a) as [[M i]|e]; [|discriminate].
  destruct (fallback_due _ _ a i) eqn:E; [|discriminate].
  apply fallback_due_inv in E as [E _]. auto.
Qed.

Lemma Crane_no_fallback_at_margin (c : Crane) (a a' : install_args) :
  ymax a <= waterlvl (crane_base c) + crane_h_dry c ->
  Crane_install_body c a ≠ Fallback a'.
Proof.
  intros H. unfold Crane_install_body.
  destruct (Crane_direct c a) as [[M i]|e]; [|discriminate].
  rewrite (fallback_due_at_margin _ _ _ _ H). discriminate.
Qed.

Lemma Crane_install_two (c : Crane) (a : install_args) (n : nat) :
  exists r, Crane_install (S (S n)) c a = Some r.
Proof.
  apply run_install_two. intros a1 a2 H.
  apply Crane_fallback_inv in H as [_ H]. apply slope_fallback_inv in H as (H & _).
  apply Crane_no_fallback_at_margin. rewrite H. apply Qle_refl.
Qed.

(** ** Loops that may raise *)

Lemma mapM_result_ok {A B : Type} (f : A -> result B) (l : list A) :
  Forall (fun a => exists b, f a = Ok b) l ->
  exists bs, mapM f l = Ok bs /\ length bs = length l.
Proof.
  induction 1 as [|a l [b Hb] _ (bs & IH & Hl)]; [exists []; auto|].
  exists (b :: bs). cbn [mapM mbind result_bind]. rewrite Hb. cbn [mbind result_bind].
  rewrite IH. cbn. auto.
Qed.

(** ** Sorting and np.unique *)

Lemma insert_sorted_nonempty {A : Type} (le : A -> A -> bool) (a : A) (l : list A) :
  insert_sorted le a l ≠ [].
Proof. destruct l; cbn; [discriminate|]. destruct (le a a0); discriminate. Qed.

Lemma sorted_nonempty {A : Type} (le : A -> A -> bool) (l : list A) :
  l ≠ [] -> sorted le l ≠ [].
Proof. destruct l; [congruence|]. intros _. apply insert_sorted_nonempty. Qed.

Lemma insert_unique_In (a y : Q) (l : list Q) :
  In y (insert_unique a l) -> y = a \/ In y l.
Proof.
  induction l as [|b l IH]; cbn.
  - intros [<-|[]]; auto.
  - destruct (Qeq_bool a b); [auto|]. destruct (Qltb a b); cbn.
    + intros [<-|H]; auto.
    + intros [<-|H]; auto. destruct (IH H); auto.
Qed.

Lemma np_unique_In (y : Q) (l : list Q) : In y (np_unique l) -> In y l.
Proof.
  induction l as [|a l IH]; cbn; [auto|].
  intros H. apply insert_unique_In in H as [->|H]; auto.
Qed.

(** ** Smallest and largest elements *)

Lemma Qmin_from_In (x : Q) (l : list Q) : In (Qmin_from x l) (x :: l).
Proof.
  unfold Qmin_from. revert x. induction l as [|y l IH]; intros x; cbn; [auto|].
  destruct (IH (if Qltb y x then y else x)) as [H|H]; [|auto].
  rewrite <- H. destruct (Qltb y x); auto.
Qed.

Lemma Qmax_from_In (x : Q) (l : list Q) : In (Qmax_from x l) (x :: l).
Proof.
  unfold Qmax_from. revert x. induction l as [|y l IH]; intros x; cbn; [auto|].
  destruct (IH (if Qgtb y x then y else x)) as [H|H]; [|auto].
  rewrite <- H. destruct (Qgtb y x); auto.
Qed.

(** ** Dicts with float keys *)

Lemma dict_get_In {V : Type} (k : Q) (d : list (Q * V)) :
  In k (map fst d) -> exists k0 v, dict_get k d = Some v /\ In (k0, v) d.
Proof.
  unfold dict_get. induction d as [|[k1 v1] d IH]; cbn; [intros []|].
  intros H. destruct (Qeq_bool k1 k) eqn:E.
  - exists k1, v1. auto.
  - destruct H as [->|H].
    + rewrite (proj2 (Qeq_bool_iff k k) (Qeq_refl k)) in E. discriminate.
    + destruct (IH H) as (k0 & v & Hv & Hin). exists k0, v. auto.
Qed.

Lemma dict_set_In {V : Type} (k : Q) (v : V) (d : list (Q * V)) (kv : Q * V) :
  In kv (dict_set k v d) ->
  (exists v0, In (fst kv, v0) d /\ (snd kv = v0 \/ snd kv = v)) \/ kv = (k, v).
Proof.
  induction d as [|[k1 v1] d IH]; cbn.
  - intros [<-|[]]. auto.
  - destruct (Qeq_bool k1 k); cbn.
    + intros [<-|H]; [left; exists v1; cbn; auto|]. left. exists (snd kv). destruct kv; cbn; auto.
    + intros [<-|H]; [left; exists v1; cbn; auto|].
      destruct (IH H) as [(v0 & Hin & Hv) | ->]; [|auto]. left. exists v0. auto.
Qed.

Lemma dict_set_key {V : Type} (k : Q) (v : V) (d : list (Q * V)) :
  exists k', In k' (map fst (dict_set k v d)) /\ k' == k.
Proof.
  induction d as [|[k1 v1] d (k' & Hin & Hk)]; cbn.
  - exists k. split; [auto | reflexivity].
  - destruct (Qeq_bool k1 k) eqn:E; cbn.
    + exists k1. split; [auto | apply Qeq_bool_iff, E].
    + exists k'. auto.
Qed.

Lemma dict_set_keys_keep {V : Type} (k : Q) (v : V) (d : list (Q * V)) (k' : Q) :
  In k' (map fst d) -> In k' (map fst (dict_set k v d)).
Proof.
  induction d as [|[k1 v1] d IH]; cbn; [intros []|].
  destruct (Qeq_bool k1 k); cbn; intros [H|H]; auto.
Qed.

(** ** The chart in absolute coordinates *)

Lemma translate_rows_values (fx : Q -> Q) (yloc : Q) (P : chart_row -> Prop)
    (rows acc : list (Q * chart_row)) :
  (forall kr, In kr acc -> P (snd kr)) ->
  (forall kr, In kr rows ->
     P {| row_x := map fx (row_x (snd kr)); row_w := row_w (snd kr) |}) ->
  forall kr, In kr (fold_left (translate_row fx yloc) rows acc) -> P (snd kr).
Proof.
  revert acc. induction rows as [|[k items] rows IH]; intros acc Hacc Hrows; cbn; [exact Hacc|].
  apply IH.
  - intros kr Hin. apply dict_set_In in Hin as [(v0 & Hin & [->| ->])| ->].
    + apply (Hacc _ Hin).
    + apply (Hrows (k, items)). left; reflexivity.
    + apply (Hrows (k, items)). left; reflexivity.
  - intros kr Hin. apply Hrows. right; exact Hin.
Qed.

Lemma translate_rows_keys_from (fx : Q -> Q) (yloc : Q) (rows acc : list (Q * chart_row)) (k' : Q) :
  In k' (map fst (fold_left (translate_row fx yloc) rows acc)) ->
  In k' (map fst acc) \/ exists k, In k (map fst rows) /\ k' = k + yloc.
Proof.
  revert acc. induction rows as [|[k items] rows IH]; intros acc; cbn; [auto|].
  intros H. apply IH in H as [H|(k0 & Hk0 & ->)]; [|right; eauto].
  apply in_map_iff in H as (kv & <- & Hin).
  apply dict_set_In in Hin as [(v0 & Hin & _)| ->].
  - left. apply in_map_iff. exists (fst kv, v0). auto.
  - right. exists k. auto.
Qed.

Lemma translate_rows_keys_keep (fx : Q -> Q) (yloc : Q) (rows acc : list (Q * chart_row)) (k' : Q) :
  In k' (map fst acc) -> In k' (map fst (fold_left (translate_row fx yloc) rows acc)).
Proof.
  revert acc. induction rows as [|[k items] rows IH]; intros acc; cbn; [auto|].
  intros H. apply IH, dict_set_keys_keep, H.
Qed.

Lemma translate_rows_keys_to (fx : Q -> Q) (yloc : Q) (rows acc : list (Q * chart_row)) (k : Q) :
  In k (map fst rows) ->
  exists k', In k' (map fst (fold_left (translate_row fx yloc) rows acc)) /\ k' == k + yloc.
Proof.
  revert acc. induction rows as [|[k1 items] rows IH]; intros acc; cbn; [intros []|].
  intros [->|H]; [|apply IH, H].
  destruct (dict_set_key (k + yloc)
              {| row_x := map fx (row_x items); row_w := row_w items |} acc) as (k' & Hin & Hk).
  exists k'. split; [|exact Hk]. apply translate_rows_keys_keep, Hin.
Qed.

(** ** Chart rows at or beyond an elevation *)

Lemma filter_nonempty {A : Type} (f : A -> bool) (l : list A) :
  List.filter f l ≠ [] <-> exists x, In x l /\ f x = true.
Proof.
  split.
  - destruct (List.filter f l) as [|x r] eqn:E; [congruence|]. intros _.
    exists x. apply filter_In. rewrite E. left; reflexivity.
  - intros (x & Hx) E. apply filter_In in Hx. rewrite E in Hx. destruct Hx.
Qed.

Lemma nearest_row_In (keys : list Q) (d k : Q) :
  nearest_row keys d = Some k -> In k keys.
Proof.
  unfold nearest_row. destruct (Qltb d 0).
  - destruct (List.filter _ keys) as [|x r] eqn:E; [discriminate|].
    intros [= <-]. assert (H := Qmax_from_In x r). rewrite <- E in H.
    apply filter_In in H. tauto.
  - destruct (List.filter _ keys) as [|x r] eqn:E; [discriminate|].
    intros [= <-]. assert (H := Qmin_from_In x r). rewrite <- E in H.
    apply filter_In in H. tauto.
Qed.

Lemma nearest_row_is_Some (keys : list Q) (d : Q) :
  is_Some (nearest_row keys d) <->
  (d < 0 /\ exists k, In k keys /\ k <= d) \/ (0 <= d /\ exists k, In k keys /\ d <= k).
Proof.
  unfold nearest_row. destruct (Qltb d 0) eqn:Ed.
  - apply Qltb_true in Ed.
    assert (Hf := filter_nonempty (fun k => Qle_bool k d) keys).
    destruct (List.filter _ keys) as [|x r].
    + split; [intros [? [=]]|]. intros [[_ (k & Hk & Hle)]|[H0 _]].
      * exfalso. apply (proj2 Hf); [|reflexivity]. exists k. split; [auto|apply Qle_bool_iff, Hle].
      * exfalso. apply (Qlt_not_le _ _ Ed H0).
    + split; [|eauto]. intros _. left. split; [exact Ed|].
      destruct (proj1 Hf) as (k & Hk & Hle); [discriminate|].
      exists k. split; [auto|apply Qle_bool_iff, Hle].
  - apply not_true_iff_false in Ed. rewrite Qltb_true in Ed. apply Qnot_lt_le in Ed.
    assert (Hf := filter_nonempty (fun k => Qgeb k d) keys).
    destruct (List.filter _ keys) as [|x r].
    + split; [intros [? [=]]|]. intros [[H0 _]|[_ (k & Hk & Hle)]].
      * exfalso. apply (Qlt_not_le _ _ H0 Ed).
      * exfalso. apply (proj2 Hf); [|reflexivity]. exists k. split; [auto|apply Qgeb_true, Hle].
    + split; [|eauto]. intros _. right. split; [exact Ed|].
      destruct (proj1 Hf) as (k & Hk & Hle); [discriminate|].
      exists k. split; [auto|apply Qgeb_true, Hle].
Qed.

Lemma nearest_row_translated (self : Excavator) (fx : Q -> Q) (yloc d : Q) :
  is_Some (nearest_row (map fst (translate_chart self fx yloc)) d)
  <-> row_beyond (map fst (exc_loading_chart self)) yloc d.
Proof.
  rewrite nearest_row_is_Some. unfold row_beyond, translate_chart. split.
  - intros [[H0 (k' & Hk' & Hle)]|[H0 (k' & Hk' & Hle)]];
      apply translate_rows_keys_from in Hk' as [[]|(k & Hk & ->)]; [left|right]; eauto.
  - intros [[H0 (k & Hk & Hle)]|[H0 (k & Hk & Hle)]];
      destruct (translate_rows_keys_to fx yloc _ [] k Hk) as (k' & Hk' & He);
      [left|right]; (split; [exact H0|]); exists k'; (split; [exact Hk'|]);
      rewrite He; exact Hle.
Qed.

(** ** Well-formed charts *)

Lemma wf_chart_inv (self : Excavator) :
  wf_chart self = true ->
  exc_loading_chart self ≠ []
  /\ Forall (fun kr => row_x (snd kr) ≠ []
                       /\ (length (row_w (snd kr)) <= length (row_x (snd kr)))%nat)
            (exc_loading_chart self).
Proof.
  unfold wf_chart. rewrite andb_true_iff, negb_true_iff, bool_decide_eq_false.
  intros [H1 H2]. split; [exact H1|].
  rewrite forallb_forall in H2. apply Forall_forall. intros kr Hkr.
  apply list_elem_of_In, H2 in Hkr. unfold wf_row in Hkr.
  rewrite andb_true_iff, negb_true_iff, bool_decide_eq_false, bool_decide_eq_true in Hkr.
  exact Hkr.
Qed.

Lemma chart_ring_ok (self : Excavator) (xloc yloc : Q) :
  wf_chart self = true ->
  exists points, chart_ring self xloc yloc = Ok points /\ points ≠ [].
Proof.
  intros Hwf. apply wf_chart_inv in Hwf as [Hne Hrows]. unfold chart_ring.
  edestruct (mapM_result_ok
               (fun '(key, items) =>
                  xmin ← py_max (row_x items);
                  xmax ← py_min (row_x items);
                  Ok ((xmax + xloc, key + yloc), (xmin + xloc, key + yloc)))
               (exc_loading_chart self)) as (ends & -> & Hlen).
  { eapply Forall_impl; [exact Hrows|]. intros [key items] [Hx _]. cbn in Hx.
    destruct (row_x items) as [|x xs]; [congruence|]. cbn. eauto. }
  cbn [mbind result_bind]. eexists. split; [reflexivity|].
  intros E. apply app_eq_nil in E as [E _]. revert E. apply sorted_nonempty, map_nonempty.
  intros ->. destruct (exc_loading_chart self); [congruence | discriminate].
Qed.

Lemma chart_polygon_ok (self : Excavator) (xloc yloc : Q) (flip : bool) :
  wf_chart self = true ->
  exists ring fx,
    chart_polygon self xloc yloc flip = Ok (ring, translate_chart self fx yloc).
Proof.
  intros Hwf. unfold chart_polygon.
  destruct (chart_ring_ok self xloc yloc Hwf) as (points & -> & Hne).
  cbn [mbind result_bind]. destruct flip.
  - unfold rotate_loading_chart. rewrite (unzip_coords_ok _ Hne). cbn. eauto.
  - eauto.
Qed.

Lemma translate_chart_rows (self : Excavator) (fx : Q -> Q) (yloc : Q) :
  wf_chart self = true ->
  forall kr, In kr (translate_chart self fx yloc) ->
             (length (row_w (snd kr)) <= length (row_x (snd kr)))%nat.
Proof.
  intros Hwf. apply wf_chart_inv in Hwf as [_ Hrows]. unfold translate_chart.
  apply (translate_rows_values fx yloc
           (fun r => (length (row_w r) <= length (row_x r))%nat)).
  - intros kr [].
  - intros kr Hkr. cbn. rewrite length_map.
    rewrite Forall_forall in Hrows. apply Hrows, list_elem_of_In, Hkr.
Qed.

(** ** Reach at a level *)

Lemma xlevel_ok (sec : list coord) (flip : bool) (y : Q) :
  In y (map snd sec) -> exists x, xlevel sec flip y = Ok x.
Proof.
  intros Hy. unfold xlevel.
  assert (Hne : map fst (List.filter (fun c => Qeq_bool (snd c) y) sec) ≠ []).
  { apply map_nonempty, filter_nonempty. apply in_map_iff in Hy as (c & <- & Hc).
    exists c. split; [exact Hc|]. apply Qeq_bool_iff. reflexivity. }
  destruct flip; [apply py_max_ok | apply py_min_ok]; exact Hne.
Qed.

Lemma np_where_from_bound (i : nat) (mask : list bool) :
  Forall (fun j => j < i + length mask)%nat (np_where_from i mask).
Proof.
  revert i. induction mask as [|b mask IH]; intros i; cbn; [constructor|].
  assert (H := IH (S i)).
  assert (H' : Forall (fun j => (j < i + S (length mask))%nat) (np_where_from (S i) mask)).
  { eapply Forall_impl; [exact H|]. cbn. intros j Hj. lia. }
  destruct b; [constructor; [lia | exact H'] | exact H'].
Qed.

Lemma np_take_ok (x : list Q) (idx : list nat) :
  Forall (fun j => j < length x)%nat idx -> exists r, np_take x idx = Ok r.
Proof.
  intros H. unfold np_take.
  edestruct (mapM_result_ok
               (fun i => match x !! i with Some v => Ok v | None => Raise IndexError end) idx)
    as (r & Hr & _); [|eauto].
  eapply Forall_impl; [exact H|]. intros j Hj. cbn beta.
  destruct (lookup_lt_is_Some_2 x j Hj) as [v ->]. eauto.
Qed.

Lemma reach_at_ok (load_chart : list (Q * chart_row)) (mass x y : Q) :
  (forall kr, In kr load_chart -> (length (row_w (snd kr)) <= length (row_x (snd kr)))%nat) ->
  In y (map fst load_chart) ->
  exists b, reach_at load_chart mass x y = Ok b.
Proof.
  intros Hrows Hy. unfold reach_at.
  destruct (dict_get_In y load_chart Hy) as (k0 & items & -> & Hin).
  specialize (Hrows _ Hin). cbn in Hrows.
  destruct (np_take_ok (row_x items)
              (np_where (map (fun m => Qgeb m mass) (row_w items)))) as [r ->]; [|cbn; eauto].
  eapply Forall_impl; [apply np_where_from_bound|]. cbn. intros j Hj.
  rewrite length_map in Hj. lia.
Qed.

(** ** [Excavator.install] up to [all_reach] *)

Lemma install_location_ok (offset : Q) (a : install_args) :
  section_coords a ≠ [] ->
  exists x flip, install_location offset a = Ok (x, standing_level a, flip).
Proof.
  intros Hne. unfold install_location, standing_level.
  destruct (loc_equip a) as [[x y]|]; [eauto|].
  unfold location_equipment. rewrite (unzip_coords_ok _ Hne). cbn [mbind result_bind].
  destruct (forallb _ _); eauto.
Qed.

Lemma Excavator_reach_spec (PW : geometry) (self : Excavator) (a : install_args) :
  section_coords a ≠ [] ->
  wf_chart self = true ->
  geometry_accepts PW self (section_coords a) ->
  exists r, Excavator_reach PW self a = Ok r /\ (is_Some r <-> rows_cover self a).
Proof.
  intros Hne Hwf Hgeo. unfold Excavator_reach.
  rewrite (unzip_coords_ok _ Hne). cbn [mbind result_bind].
  destruct (install_location_ok (exc_offset self) a Hne) as (xloc & flip & ->).
  cbn [mbind result_bind]. unfold chart_location.
  destruct (chart_polygon_ok self xloc (standing_level a) flip Hwf) as (ring & fx & Hpoly).
  rewrite Hpoly. cbn [mbind result_bind].
  destruct (Hgeo _ _ _ _ _ Hpoly) as [within ->]. cbn [mbind result_bind].
  set (lc := translate_chart self fx (standing_level a)).
  set (dy := np_unique (map snd (section_coords a))).
  assert (Hcover : is_Some (mapM (nearest_row (map fst lc)) dy) <-> rows_cover self a).
  { unfold rows_cover. fold dy. rewrite mapM_is_Some. apply Forall_iff.
    intros d. apply (nearest_row_translated self fx). }
  destruct (mapM (nearest_row (map fst lc)) dy) as [ychart|] eqn:E.
  - destruct (mapM_result_ok (xlevel (section_coords a) flip) dy) as (xlevels & -> & _).
    { apply Forall_forall. intros y Hy. apply xlevel_ok, np_unique_In, list_elem_of_In, Hy. }
    cbn [mbind result_bind].
    destruct (mapM_result_ok
                (fun xy => reach_at lc (mass a) (fst xy) (snd xy)) (zip xlevels ychart))
      as (all_reach & -> & _).
    + apply Forall_forall. intros [x y] Hxy. apply elem_of_zip_r in Hxy. cbn [fst snd].
      apply reach_at_ok; [apply translate_chart_rows, Hwf|].
      apply mapM_Some_1, Forall2_Forall_r with (Q := fun y => In y (map fst lc)) in E.
      * rewrite Forall_forall in E. apply E, Hxy.
      * apply Forall_forall. intros d _ y' Hy'. apply nearest_row_In in Hy'. exact Hy'.
    + cbn. exists (Some all_reach). split; [reflexivity|].
      rewrite <- Hcover. split; eauto.
  - exists None. split; [reflexivity|]. rewrite <- Hcover.
    split; intros [? [=]].
Qed.

(** ** [Excavator.install] *)


Lemma Excavator_fallback_inv (PW : geometry) (e : Excavator) (a a' : install_args) :
  Excavator_install_body PW e a = Fallback a' ->
  waterlvl (exc_base e) + exc_h_dry e < ymax a
  /\ slope_fallback (waterlvl (exc_base e)) (exc_h_dry e) a = Fallback a'.
Proof.
  unfold Excavator_install_body.
  destruct (Excavator_reach PW e a) as [[r|]|x]; [|discriminate..].
  destruct (py_min _) as [y_start|x]; [|discriminate].
  destruct (fallback_due _ _ a _) eqn:E; [|discriminate].
  apply fallback_due_inv in E as [E _]. auto.
Qed.

Lemma Excavator_no_fallback_at_margin (PW : geometry) (e : Excavator) (a a' : install_args) :
  ymax a <= waterlvl (exc_base e) + exc_h_dry e ->
  Excavator_install_body PW e a ≠ Fallback a'.
Proof.
  intros H. unfold Excavator_install_body.
  destruct (Excavator_reach PW e a) as [[r|]|x]; [|discriminate..].
  destruct (py_min _) as [y_start|x]; [|discriminate].
  rewrite (fallback_due_at_margin _ _ _ _ H). discriminate.
Qed.

Lemma Excavator_install_two (PW : geometry) (e : Excavator) (a : install_args) (n : nat) :
  exists r, Excavator_install PW (S (S n)) e a = Some r.
Proof.
  apply run_install_two. intros a1 a2 H.
  apply Excavator_fallback_inv in H as [_ H]. apply slope_fallback_inv in H as (H & _).
  apply Excavator_no_fallback_at_margin. rewrite H. apply Qle_refl.
Qed.


(** ** Runs of [install] *)


Lemma run_install_one (body : install_args -> outcome) (n : nat) (a : install_args) (b : bool) :
  body a = Return b -> run_install body (S n) a = Some (Ok b).
Proof. intros H. cbn. rewrite H. reflexivity. Qed.


(** ** [Crane.install] *)

Lemma Crane_max_dist_ok (c : Crane) (a : install_args) :
  section_coords a ≠ [] ->
  exists dist, Crane_max_dist c a = Ok (standing_level a, dist).
Proof.
  intros Hne. unfold Crane_max_dist. rewrite (unzip_coords_ok _ Hne).
  cbn [mbind result_bind].
  destruct (install_location_ok (crane_offset c) a Hne) as (xloc & flip & ->).
  cbn [mbind result_bind].
  destruct (py_max_ok (map (fun x => Qabs (x - xloc)) (map fst (section_coords a))))
    as [dist ->]; [apply map_nonempty, map_nonempty, Hne|].
  cbn. eauto.
Qed.

Lemma Crane_direct_ok (c : Crane) (a : install_args) :
  section_coords a ≠ [] ->
  exists y_start y_end dist,
    py_min (map snd (section_coords a)) = Ok y_start
    /\ py_max (map snd (section_coords a)) = Ok y_end
    /\ Crane_max_dist c a = Ok (standing_level a, dist)
    /\ Crane_direct c a
       = Ok (fst (fst (Crane_lift c dist (mass a))),
             Crane_feasible c a y_start (fst (fst (Crane_lift c dist (mass a))))
               (le_sqrt (standing_level a - y_end)
                  (snd (Crane_lift c dist (mass a)) * snd (Crane_lift c dist (mass a))
                   - snd (fst (Crane_lift c dist (mass a)))
                     * snd (fst (Crane_lift c dist (mass a)))))).
Proof.
  intros Hne. unfold Crane_direct. rewrite (unzip_coords_ok _ Hne).
  destruct (py_min_ok (map snd (section_coords a))) as [lo Hlo]; [apply map_nonempty, Hne|].
  destruct (py_max_ok (map snd (section_coords a))) as [hi Hhi]; [apply map_nonempty, Hne|].
  destruct (Crane_max_dist_ok c a Hne) as [dist Hd].
  exists lo, hi, dist. cbn [mbind result_bind]. rewrite Hlo, Hhi. cbn [mbind result_bind].
  rewrite Hd. cbn [mbind result_bind].
  destruct (Crane_lift c dist (mass a)) as [[M r] l]. auto.
Qed.








(** ** Barge *)

Lemma set_instance_id (b : Barge) : set_instance (barge_instance b) b = b.
Proof. destruct b; reflexivity. Qed.

Lemma Truck_install_kw_deck (t : Truck) (layer g : string) (deck : Q) (sec : list coord) :
  Truck_install_kw t (deck_keywords layer g deck sec) = (Raise TypeError, t).
Proof. reflexivity. Qed.

Lemma Barge_prefix_ok (sec : list coord) :
  sec ≠ [] ->
  exists xtop y_end,
    (xtop ← py_max_tuple sec;
     '(x_section, y_section) ← unzip_coords sec;
     y_end ← py_max y_section;
     Ok (fst xtop, x_section, y_end))
    = Ok (xtop, map fst sec, y_end)
    /\ py_max (map snd sec) = Ok y_end.
Proof.
  intros Hne. destruct sec as [|c sec]; [congruence|].
  eexists _, _. split; reflexivity.
Qed.

(** The sibling path binds: a mounted PlateFeeder takes the same keywords. *)
Lemma PlateFeeder_install_kw_deck
    (p : PlateFeeder) (layer g : string) (deck : Q) (sec : list coord) :
  PlateFeeder_install_kw p (deck_keywords layer g deck sec)
  = PlateFeeder_install p layer g deck sec (Some deck).
Proof. reflexivity. Qed.

(** C8: for a Barge wrapping a Truck with an allowed grading,
    [Barge.install] reaches the direct delegation with the deck as working
    level, but the call passes [level], which [Truck.install] does not
    take, and omits [length_top], which it requires: the call raises
    TypeError, no decision is returned and the Truck's tests never run. *)
Theorem Barge_install_truck_raises
    (PW : geometry) (fuel : nat) (self : Barge) (t : Truck) (layer g : string)
    (slope : Q * Q) (sec : list coord) (xmax_top mass : Q) :
  barge_instance self = ITruck t ->
  has_grading (truck_base t) g = true ->
  sec ≠ [] ->
  Barge_install PW fuel self layer g slope sec xmax_top mass = Some (Raise TypeError, self).
Proof.
  intros Hi Hg Hne. unfold Barge_install.
  destruct (Barge_prefix_ok sec Hne) as (xtop & y_end & -> & _).
  rewrite Hi. cbn [instrument_base]. rewrite Hg.
  unfold Barge_near. destruct slope as [V H].
  assert (E : forall b : bool,
             (if b then Some (Ok false, ITruck t) else Some (Ok false, ITruck t))
             = Some (@Ok bool false, ITruck t)) by (intros []; reflexivity).
  rewrite E. cbn [mbind option_bind]. unfold Barge_deck.
  rewrite Truck_install_kw_deck. cbn [mbind option_bind].
  rewrite <- Hi, set_instance_id. reflexivity.
Qed.

(** ** Equipment without the grading *)









(** ** Every kind of equipment *)

Lemma Barge_init_mapping_inherited
    (name' : string) (w : Q) (other : instrument) (iwd height downtime extra : Q)
    (ukc : option Q) (margin : Q) (dt : option (gmap string (gmap string Q)))
    (mob equ : option (gmap string Q)) (b : Barge) :
  Barge_init name' w other iwd height downtime extra ukc margin dt mob equ = Ok b ->
  mapping_inherited b.
Proof.
  unfold Barge_init.
  destruct (add_costs (mobilisation_cost _) _) as [m|x]; cbn [mbind result_bind];
    [|discriminate].
  destruct (add_costs _ _) as [q|x]; cbn [mbind result_bind]; [|discriminate].
  case_bool_decide as Hall; [|discriminate].
  intros [= <-] g. cbn [barge_base barge_instance design_type].
  rewrite lookup_omap. destruct (design_type (instrument_base other) !! g) as [d|] eqn:E; cbn.
  - specialize (Hall g d E). cbn in Hall. split; eauto.
  - split; intros [? [=]].
Qed.


(** ** What [Barge.install] leaves on the mounted instrument *)

Lemma Barge_prefix_inv (sec : list coord) (xtop y_end : Q) (xs : list Q) :
  (xtop ← py_max_tuple sec;
   '(x_section, y_section) ← unzip_coords sec;
   y_end ← py_max y_section;
   Ok (fst xtop, x_section, y_end))
  = Ok (xtop, xs, y_end) ->
  sec ≠ [] /\ xs = map fst sec /\ py_max (map snd sec) = Ok y_end.
Proof.
  destruct sec as [|c sec]; [discriminate|]. cbn. intros [= _ <- <-]. auto.
Qed.

Lemma Barge_install_state
    (PW : geometry) (fuel : nat) (self : Barge) (layer g : string) (slope : Q * Q)
    (sec : list coord) (xmax_top mass : Q) (b : bool) (self' : Barge) :
  Barge_install PW fuel self layer g slope sec xmax_top mass = Some (Ok b, self') ->
  self' = set_instance
            (if reparents self g sec
             then reparent (waterlvl (barge_base self)) (barge_instance self)
             else barge_instance self) self.
Proof.
  unfold Barge_install, reparents, clearance_met.
  destruct (_ ← py_max_tuple sec; _) as [[[xtop xs] y_end]|x] eqn:Ep; [|discriminate].
  apply Barge_prefix_inv in Ep as (Hne & -> & ->).
  destruct (has_grading _ g); cbn [andb]; [|intros [= _ <-]; symmetry; apply set_instance_id].
  unfold Barge_near, Barge_deck. destruct slope as [V H].
  destruct (barge_instance self) as [c|e|p|t|o] eqn:Ei; cbn [reparent].
  - (* Crane *)
    destruct (Qgeb y_end _).
    + destruct (Qeq_bool V 0); [discriminate|].
      destruct (location_equipment _ _ _ _ _ _ _) as [[[xe ye] fl]|x]; [|discriminate].
      destruct (Crane_install fuel _ _) as [[r|x]|]; cbn [mbind option_bind];
        [|discriminate..].
      destruct (_ ← py_min _; _) as [xq|x]; [|discriminate].
      destruct (Crane_install fuel _ _) as [[r'|x]|]; cbn [mbind option_bind];
        [|discriminate..].
      intros [= _ <-]. reflexivity.
    + cbn [mbind option_bind].
      destruct (_ ← py_min _; _) as [xq|x]; [|discriminate].
      destruct (Crane_install fuel _ _) as [[r'|x]|]; cbn [mbind option_bind];
        [|discriminate..].
      intros [= _ <-]. reflexivity.
  - (* Excavator *)
    destruct (Qgeb y_end _).
    + destruct (Qeq_bool V 0); [discriminate|].
      destruct (location_equipment _ _ _ _ _ _ _) as [[[xe ye] fl]|x]; [|discriminate].
      destruct (Excavator_install PW fuel _ _) as [[r|x]|]; cbn [mbind option_bind];
        [|discriminate..].
      destruct (py_max _) as [xq|x]; [|discriminate].
      destruct (Excavator_install PW fuel _ _) as [[r'|x]|]; cbn [mbind option_bind];
        [|discriminate..].
      intros [= _ <-]. reflexivity.
    + cbn [mbind option_bind].
      destruct (py_max _) as [xq|x]; [|discriminate].
      destruct (Excavator_install PW fuel _ _) as [[r'|x]|]; cbn [mbind option_bind];
        [|discriminate..].
      intros [= _ <-]. reflexivity.
  - (* PlateFeeder *)
    destruct (Qgeb y_end _); cbn [mbind option_bind]; intros [= _ <-]; reflexivity.
  - (* Truck *)
    destruct (Qgeb y_end _); cbn [mbind option_bind];
      rewrite Truck_install_kw_deck; discriminate.
  - destruct (Qgeb y_end _); cbn [mbind option_bind]; intros [= _ <-]; reflexivity.
Qed.

(** C6, as the code has it: the reparenting is not restored.  After
    [Barge.install] has returned, a mounted Excavator (grading allowed) and
    a mounted Crane (grading allowed, clearance condition met) carry the
    Barge's water level and a dry margin of 0; on every other path the
    Barge and its instrument are as before the call. *)
Theorem Barge_install_reparents
    (PW : geometry) (fuel : nat) (self : Barge) (layer g : string) (slope : Q * Q)
    (sec : list coord) (xmax_top mass : Q) (b : bool) (self' : Barge) :
  Barge_install PW fuel self layer g slope sec xmax_top mass = Some (Ok b, self') ->
  (reparents self g sec = true ->
     barge_instance self' = reparent (waterlvl (barge_base self)) (barge_instance self)
     /\ waterlvl (instrument_base (barge_instance self')) = waterlvl (barge_base self)
     /\ mounted_h_dry (barge_instance self') = Some 0)
  /\ (reparents self g sec = false -> self' = self).
Proof.
  intros H. apply Barge_install_state in H. split; intros Hr; rewrite Hr in H.
  - subst self'. cbn [set_instance barge_instance]. split; [reflexivity|].
    unfold reparents in Hr. apply andb_true_iff in Hr as [_ Hr].
    destruct (barge_instance self); try discriminate; cbn; auto.
  - rewrite H. apply set_instance_id.
Qed.

Lemma Barge_install_reparents_witness :
  (reparents barge_with_crane "HMA_300_1000" section_submerged = true ->
     barge_instance (set_instance (ICrane (reparent_crane 0 crane_mounted)) barge_with_crane)
       = reparent (waterlvl (barge_base barge_with_crane)) (barge_instance barge_with_crane)
     /\ waterlvl (instrument_base
                    (barge_instance
                       (set_instance (ICrane (reparent_crane 0 crane_mounted)) barge_with_crane)))
        = waterlvl (barge_base barge_with_crane)
     /\ mounted_h_dry (barge_instance
                         (set_instance (ICrane (reparent_crane 0 crane_mounted)) barge_with_crane))
        = Some 0)
  /\ (reparents barge_with_crane "HMA_300_1000" section_submerged = false ->
      set_instance (ICrane (reparent_crane 0 crane_mounted)) barge_with_crane = barge_with_crane).
Proof.
  apply (Barge_install_reparents accepting 1 barge_with_crane "armour" "HMA_300_1000" (1, 1)
           section_submerged 4 100 true).
  vm_compute. reflexivity.
Defined.

(** C6 as stated fails: the mounted Crane had water level 2 and dry
    margin 1 before the call, and has water level 0 and dry margin 0 after
    it has returned. *)
Lemma Barge_install_leaves_reparented :
  waterlvl (crane_base crane_mounted) = 2
  /\ crane_h_dry crane_mounted = 1
  /\ exists c', Barge_install accepting 1 barge_with_crane "armour" "HMA_300_1000" (1, 1)
                  section_submerged 4 100
                = Some (Ok true, set_instance (ICrane c') barge_with_crane)
                /\ waterlvl (crane_base c') = 0
                /\ crane_h_dry c' = 0.
Proof.
  split; [reflexivity|]. split; [reflexivity|].
  exists (reparent_crane 0 crane_mounted). split; [vm_compute; reflexivity|].
  split; reflexivity.
Qed.

(** C2: at this input the clearance condition is met and the mounted
    Crane's delegated decision is false (the mass exceeds every capacity),
    yet [Barge.install] returns true: the [else] of lines 1593-1596 also runs
    after the delegation and overwrites its result. *)
Theorem Barge_install_crane_overrides :
  clearance_met barge_with_crane section_submerged = true
  /\ has_grading (crane_base crane_mounted) "HMA_300_1000" = true
  /\ fst <$> Barge_near accepting 1 barge_with_crane (ICrane crane_mounted)
               (mounted_args "armour" "HMA_300_1000" 1 section_submerged 4 100) (1, 1)
               section_submerged 4 0 false
     = Some (Ok false)
  /\ fst <$> Barge_install accepting 1 barge_with_crane "armour" "HMA_300_1000" (1, 1)
               section_submerged 4 100
     = Some (Ok true).
Proof. repeat split; vm_compute; reflexivity. Qed.

(** With a Crane mounted and the grading allowed, the only decision
    [Barge.install] returns is true. *)
Lemma Barge_install_crane_true
    (PW : geometry) (fuel : nat) (self : Barge) (c : Crane) (layer g : string)
    (slope : Q * Q) (sec : list coord) (xmax_top mass : Q) (b : bool) (self' : Barge) :
  barge_instance self = ICrane c ->
  has_grading (crane_base c) g = true ->
  Barge_install PW fuel self layer g slope sec xmax_top mass = Some (Ok b, self') ->
  b = true.
Proof.
  intros Hi Hg. unfold Barge_install.
  destruct (_ ← py_max_tuple sec; _) as [[[xtop xs] y_end]|x]; [|discriminate].
  rewrite Hi. cbn [instrument_base]. rewrite Hg.
  destruct (Barge_near _ _ _ _ _ _ _ _ _ _) as [[[r1|x] inst1]|] eqn:E1;
    cbn [mbind option_bind]; [|discriminate..].
  assert (exists c1, inst1 = ICrane c1) as [c1 ->].
  { revert E1. unfold Barge_near. destruct slope as [V H].
    destruct (Qgeb y_end _); [|intros [= _ <-]; eauto].
    destruct (Qeq_bool V 0); [discriminate|].
    destruct (location_equipment _ _ _ _ _ _ _) as [[[xe ye] fl]|x]; [|discriminate].
    destruct (Crane_install fuel _ _); cbn [mbind option_bind]; [|discriminate].
    intros [= _ <-]. eauto. }
  unfold Barge_deck.
  destruct (_ ← py_min _; _) as [xq|x]; [|discriminate].
  destruct (Crane_install fuel _ _) as [[r'|x]|]; cbn [mbind option_bind];
    [|discriminate..].
  intros [= <- _]. reflexivity.
Qed.

(** The scenario of the specification: deck at waterlvl + height = 5,
    section top at y = 4. *)
Lemma Barge_install_truck_raises_witness :
  Barge_install accepting 1 barge_with_truck "core" "HMA_300_1000" (1, 2) section_below_deck 6 1
  = Some (Raise TypeError, barge_with_truck).
Proof.
  apply (Barge_install_truck_raises accepting 1 barge_with_truck truck_mounted "core"
           "HMA_300_1000" (1, 2) section_below_deck 6 1);
    [reflexivity | vm_compute; reflexivity | discriminate].
Defined.

(** ** Termination of the slope fallback *)

(** C4: the slope-fallback recursion of [Excavator.install] and of
    [Crane.install] terminates for every input: two activations always
    suffice.  A recursive call is made at the threshold
    waterlvl + h_dry, strictly below the elevation of its caller, and a
    call whose elevation is at or below the threshold makes none. *)
Theorem install_fallback_terminates
    (PW : geometry) (e : Excavator) (c : Crane) (a : install_args) (n : nat) :
  (exists r, Excavator_install PW (S (S n)) e a = Some r)
  /\ (exists r, Crane_install (S (S n)) c a = Some r)
  /\ (forall a', Excavator_install_body PW e a = Fallback a' ->
        ymax a' = waterlvl (exc_base e) + exc_h_dry e
        /\ ymax a' < ymax a
        /\ forall a'', Excavator_install_body PW e a' ≠ Fallback a'')
  /\ (forall a', Crane_install_body c a = Fallback a' ->
        ymax a' = waterlvl (crane_base c) + crane_h_dry c
        /\ ymax a' < ymax a
        /\ forall a'', Crane_install_body c a' ≠ Fallback a'')
  /\ (ymax a <= waterlvl (exc_base e) + exc_h_dry e ->
      forall a', Excavator_install_body PW e a ≠ Fallback a')
  /\ (ymax a <= waterlvl (crane_base c) + crane_h_dry c ->
      forall a', Crane_install_body c a ≠ Fallback a').
Proof.
  split; [apply Excavator_install_two|]. split; [apply Crane_install_two|].
  split; [|split; [|split]].
  - intros a' H. apply Excavator_fallback_inv in H as [Hlt H].
    apply slope_fallback_inv in H as (Hy & _). rewrite Hy.
    split; [reflexivity|]. split; [exact Hlt|].
    intros a''. apply Excavator_no_fallback_at_margin. rewrite Hy. apply Qle_refl.
  - intros a' H. apply Crane_fallback_inv in H as [Hlt H].
    apply slope_fallback_inv in H as (Hy & _). rewrite Hy.
    split; [reflexivity|]. split; [exact Hlt|].
    intros a''. apply Crane_no_fallback_at_margin. rewrite Hy. apply Qle_refl.
  - intros H a'. apply Excavator_no_fallback_at_margin, H.
  - intros H a'. apply Crane_no_fallback_at_margin, H.
Qed.

(** ** Examples for the reach engines *)


(** The feasibility test and the value returned are two things: here no
    radius reaches the section, M_max is the sentinel, the low point is not
    dry and the test is false; the slope fallback then re-evaluates at the
    dry-margin elevation, 7 m from the section, and [install] returns
    true. *)
Lemma Crane_install_fallback_feasible :
  Crane_max_dist crane_on_crest (call_from_crest (1, 2)) = Ok (10, 27)
  /\ select_radius (map fst (crane_loading_chart crane_on_crest)) 27 = None
  /\ Crane_direct crane_on_crest (call_from_crest (1, 2)) = Ok (NegInf, false)
  /\ low_point_dry 0 0 section_toe = false
  /\ Crane_install 2 crane_on_crest (call_from_crest (1, 2)) = Some (Ok true).
Proof. repeat split; vm_compute; reflexivity. Qed.

Lemma geometry_accepts_accepting (e : Excavator) (sec : list coord) :
  geometry_accepts accepting e sec.
Proof. intros xloc yloc flip ring lc _. exists true. reflexivity. Qed.





(** * Further properties of the equipment classes *)

(** ** Prices and production rates *)

Lemma has_grading_true (e : Equipment) (g : string) :
  has_grading e g = true <-> is_Some (design_type e !! g).
Proof. unfold has_grading. apply bool_decide_eq_true. Qed.

(** A grading with neither a ['cost'] nor a ['production_rate'] has no
    price; once [get_production_rate] has been asked for it (and has
    raised), the stored default rate 1 makes the price the hourly figure
    of the equipment. *)
Theorem get_price_after_default_rate
    (self : Equipment) (layer g key : string) (d : gmap string Q) (hourly : Q) :
  design_type self !! g = Some d ->
  d !! "cost" = None ->
  d !! "production_rate" = None ->
  equipment_cost self !! key = Some hourly ->
  get_price self layer g key = Raise KeyError
  /\ get_price (snd (get_production_rate self layer g)) layer g key = Ok (hourly / 1).
Proof.
  intros Hg Hc Hp Hk. split.
  - unfold get_price. rewrite Hg. rewrite bool_decide_eq_false_2; [|rewrite Hc; intros [? [=]]].
    unfold item. rewrite Hk, Hp. reflexivity.
  - unfold get_production_rate. rewrite Hg, Hp. cbn [snd].
    unfold get_price, set_design_type. cbn [design_type equipment_cost].
    rewrite lookup_insert_eq.
    rewrite bool_decide_eq_false_2.
    + unfold item. rewrite Hk, lookup_insert_eq. reflexivity.
    + rewrite lookup_insert_ne; [|discriminate]. rewrite Hc. intros [? [=]].
Qed.

Lemma get_price_after_default_rate_witness :
  get_price loader_hourly "core" "LMA_5_40" "cost" = Raise KeyError
  /\ get_price (snd (get_production_rate loader_hourly "core" "LMA_5_40"))
               "core" "LMA_5_40" "cost" = Ok (120 / 1).
Proof.
  apply (get_price_after_default_rate loader_hourly "core" "LMA_5_40" "cost"
           {[ "CO2" := 1 ]} 120); reflexivity.
Defined.


(** ** The Barge as priced equipment *)

Lemma add_costs_inv (a b m : gmap string Q) :
  add_costs a b = Ok m ->
  exists ac bc ao bo,
    a !! "cost" = Some ac /\ b !! "cost" = Some bc
    /\ a !! "CO2" = Some ao /\ b !! "CO2" = Some bo
    /\ m = {[ "cost" := ac + bc; "CO2" := ao + bo ]}.
Proof.
  unfold add_costs, item.
  destruct (a !! "cost") as [ac|]; [|discriminate]. cbn [mbind result_bind].
  destruct (b !! "cost") as [bc|]; [|discriminate]. cbn [mbind result_bind].
  destruct (a !! "CO2") as [ao|]; [|discriminate]. cbn [mbind result_bind].
  destruct (b !! "CO2") as [bo|]; [|discriminate]. cbn [mbind result_bind].
  intros [= <-]. eauto 10.
Qed.

Lemma add_costs_raises (a b : gmap string Q) (e : exn) :
  add_costs a b = Raise e -> e = KeyError.
Proof.
  unfold add_costs, item.
  destruct (a !! "cost"); cbn [mbind result_bind]; [|congruence].
  destruct (b !! "cost"); cbn [mbind result_bind]; [|congruence].
  destruct (a !! "CO2"); cbn [mbind result_bind]; [|congruence].
  destruct (b !! "CO2"); cbn [mbind result_bind]; [|congruence].
  discriminate.
Qed.

Lemma barge_entry_inv (extra downtime : Q) (d d' : gmap string Q) :
  barge_entry extra downtime d = Some d' ->
  exists c o p,
    d !! "cost" = Some c /\ d !! "CO2" = Some o /\ d !! "production_rate" = Some p
    /\ d' = {[ "cost" := c + extra; "CO2" := o; "production_rate" := p - downtime ]}.
Proof.
  unfold barge_entry.
  destruct (d !! "cost") as [c|]; [|discriminate]. cbn [mbind option_bind].
  destruct (d !! "CO2") as [o|]; [|discriminate]. cbn [mbind option_bind].
  destruct (d !! "production_rate") as [p|]; [|discriminate]. cbn [mbind option_bind].
  intros [= <-]. eauto 10.
Qed.

Lemma Barge_init_inv
    (name' : string) (w : Q) (other : instrument) (iwd height downtime extra : Q)
    (ukc : option Q) (margin : Q) (dt : option (gmap string (gmap string Q)))
    (mob equ : option (gmap string Q)) (b : Barge) :
  Barge_init name' w other iwd height downtime extra ukc margin dt mob equ = Ok b ->
  exists m q,
    add_costs (default zero_cost mob) (mobilisation_cost (instrument_base other)) = Ok m
    /\ add_costs (default zero_cost equ) (equipment_cost (instrument_base other)) = Ok q
    /\ map_Forall (fun _ d => is_Some (barge_entry extra downtime d))
                  (design_type (instrument_base other))
    /\ b = {| barge_base :=
                {| name := name';
                   design_type := omap (barge_entry extra downtime)
                                       (design_type (instrument_base other));
                   mobilisation_cost := m;
                   equipment_cost := q;
                   waterlvl := w |};
              barge_instance := other;
              barge_installation_waterdepth := iwd;
              barge_height := height;
              barge_margin_x := margin;
              barge_ukc := default 0 ukc |}.
Proof.
  unfold Barge_init, Equipment_init. cbn [mobilisation_cost equipment_cost].
  destruct (add_costs (default zero_cost mob) _) as [m|x]; cbn [mbind result_bind];
    [|discriminate].
  destruct (add_costs (default zero_cost equ) _) as [q|x]; cbn [mbind result_bind];
    [|discriminate].
  case_bool_decide as Hall; [|discriminate].
  intros [= <-]. exists m, q. auto.
Qed.

Lemma Barge_init_entry
    (name' : string) (w : Q) (other : instrument) (iwd height downtime extra : Q)
    (ukc : option Q) (margin : Q) (dt : option (gmap string (gmap string Q)))
    (mob equ : option (gmap string Q)) (b : Barge) (g : string) (d : gmap string Q) :
  Barge_init name' w other iwd height downtime extra ukc margin dt mob equ = Ok b ->
  design_type (instrument_base other) !! g = Some d ->
  exists c o p,
    d !! "cost" = Some c /\ d !! "CO2" = Some o /\ d !! "production_rate" = Some p
    /\ design_type (barge_base b) !! g
       = Some {[ "cost" := c + extra; "CO2" := o; "production_rate" := p - downtime ]}.
Proof.
  intros H Hd. apply Barge_init_inv in H as (m & q & _ & _ & Hall & ->).
  cbn [barge_base design_type].
  destruct (Hall g d Hd) as [d' Hd'].
  destruct (barge_entry_inv _ _ _ _ Hd') as (c & o & p & Hc & Ho & Hp & ->).
  exists c, o, p. rewrite lookup_omap, Hd. cbn. rewrite Hd'. auto.
Qed.

(** [Barge.__init__] builds the Barge's own mapping: each grading of the
    mounted instrument gets the instrument's cost plus the surcharge, its
    CO2, and its production rate less the downtime; the mobilisation and
    hourly figures are the Barge's plus the instrument's; the instrument
    itself is mounted as it is. *)
Theorem Barge_init_mapping
    (name' : string) (w : Q) (other : instrument) (iwd height downtime extra : Q)
    (ukc : option Q) (margin : Q) (dt : option (gmap string (gmap string Q)))
    (mob equ : option (gmap string Q)) (b : Barge) :
  Barge_init name' w other iwd height downtime extra ukc margin dt mob equ = Ok b ->
  barge_instance b = other
  /\ (forall g d, design_type (instrument_base other) !! g = Some d ->
        exists c o p,
          d !! "cost" = Some c /\ d !! "CO2" = Some o /\ d !! "production_rate" = Some p
          /\ design_type (barge_base b) !! g
             = Some {[ "cost" := c + extra; "CO2" := o;
                       "production_rate" := p - downtime ]})
  /\ (exists own inst,
        default zero_cost mob !! "cost" = Some own
        /\ mobilisation_cost (instrument_base other) !! "cost" = Some inst
        /\ mobilisation_cost (barge_base b) !! "cost" = Some (own + inst))
  /\ (exists own inst,
        default zero_cost equ !! "cost" = Some own
        /\ equipment_cost (instrument_base other) !! "cost" = Some inst
        /\ equipment_cost (barge_base b) !! "cost" = Some (own + inst)).
Proof.
  intros H. assert (Hent := fun g d => Barge_init_entry _ _ _ _ _ _ _ _ _ _ _ _ b g d H).
  apply Barge_init_inv in H as (m & q & Hm & Hq & Hall & ->).
  cbn [barge_instance barge_base design_type mobilisation_cost equipment_cost].
  split; [reflexivity|]. split; [|split].
  - exact Hent.
  - apply add_costs_inv in Hm as (ac & bc & ao & bo & Ha & Hb & _ & _ & ->).
    exists ac, bc. rewrite lookup_insert_eq. auto.
  - apply add_costs_inv in Hq as (ac & bc & ao & bo & Ha & Hb & _ & _ & ->).
    exists ac, bc. rewrite lookup_insert_eq. auto.
Qed.

Lemma Barge_init_mapping_witness :
  barge_instance barge_priced = ICrane crane_mounted
  /\ (forall g d, design_type (instrument_base (ICrane crane_mounted)) !! g = Some d ->
        exists c o p,
          d !! "cost" = Some c /\ d !! "CO2" = Some o /\ d !! "production_rate" = Some p
          /\ design_type (barge_base barge_priced) !! g
             = Some {[ "cost" := c + 2; "CO2" := o; "production_rate" := p - 5 ]}).
Proof.
  split;
    [apply (proj1 (Barge_init_mapping "barge" 0 (ICrane crane_mounted) 1 1 5 2 None 2
                     None None None barge_priced eq_refl))
    |apply (proj1 (proj2 (Barge_init_mapping "barge" 0 (ICrane crane_mounted) 1 1 5 2 None 2
                            None None None barge_priced eq_refl)))].
Defined.

(** [Barge.__init__] raises KeyError as soon as one grading of the
    instrument lacks a cost, a CO2 figure or a production rate: an
    instrument whose rate is folded into its price cannot be mounted. *)
Theorem Barge_init_incomplete_entry
    (name' : string) (w : Q) (other : instrument) (iwd height downtime extra : Q)
    (ukc : option Q) (margin : Q) (dt : option (gmap string (gmap string Q)))
    (mob equ : option (gmap string Q)) (g key : string) (d : gmap string Q) :
  design_type (instrument_base other) !! g = Some d ->
  key = "cost" \/ key = "CO2" \/ key = "production_rate" ->
  d !! key = None ->
  Barge_init name' w other iwd height downtime extra ukc margin dt mob equ = Raise KeyError.
Proof.
  intros Hd Hkey Hnone.
  destruct (Barge_init name' w other iwd height downtime extra ukc margin dt mob equ)
    as [b|x] eqn:E.
  - exfalso. apply Barge_init_inv in E as (_ & _ & _ & _ & Hall & _).
    destruct (Hall g d Hd) as [d' Hd'].
    apply barge_entry_inv in Hd' as (c & o & p & Hc & Ho & Hp & _).
    destruct Hkey as [->|[->| ->]]; congruence.
  - f_equal. revert E. unfold Barge_init.
    destruct (add_costs (mobilisation_cost _) _) as [m|x'] eqn:Em; cbn [mbind result_bind].
    + destruct (add_costs (equipment_cost _) _) as [q|x'] eqn:Eq; cbn [mbind result_bind].
      * case_bool_decide; [discriminate | intros [= <-]; reflexivity].
      * intros [= <-]. apply (add_costs_raises _ _ _ Eq).
    + intros [= <-]. apply (add_costs_raises _ _ _ Em).
Qed.

Lemma Barge_init_incomplete_entry_witness :
  Barge_init "barge" 0 (IOther loader_without_rate) 1 1 5 2 None 2 None None None
  = Raise KeyError.
Proof.
  apply (Barge_init_incomplete_entry "barge" 0 (IOther loader_without_rate) 1 1 5 2 None 2
           None None None "HMA_60_300" "production_rate" {[ "cost" := 10; "CO2" := 1 ]});
    [reflexivity | auto | reflexivity].
Defined.

(** For a Barge as [Barge.__init__] builds it, every grading has a rate
    and a cost of its own: [get_production_rate] returns the instrument's
    rate less the downtime and changes nothing, and the price is the
    instrument's cost plus the surcharge, whatever the hourly figures. *)
Theorem Barge_rate_and_price
    (name' : string) (w : Q) (other : instrument) (iwd height downtime extra : Q)
    (ukc : option Q) (margin : Q) (dt : option (gmap string (gmap string Q)))
    (mob equ : option (gmap string Q)) (b : Barge) (layer g : string) :
  Barge_init name' w other iwd height downtime extra ukc margin dt mob equ = Ok b ->
  has_grading (instrument_base other) g = true ->
  exists c p,
    get_price (instrument_base other) layer g "cost" = Ok c
    /\ fst (get_production_rate (instrument_base other) layer g) = Ok p
    /\ get_price (barge_base b) layer g "cost" = Ok (c + extra)
    /\ get_production_rate (barge_base b) layer g = (Ok (p - downtime), barge_base b).
Proof.
  intros Hb Hg. apply has_grading_true in Hg as [d Hd].
  destruct (Barge_init_entry _ _ _ _ _ _ _ _ _ _ _ _ _ g d Hb Hd)
    as (c & o & p & Hc & Ho & Hp & Hentry).
  exists c, p. unfold get_price, get_production_rate. rewrite Hd, Hentry, Hp.
  rewrite !bool_decide_eq_true_2.
  - unfold item. rewrite Hc. repeat split; reflexivity.
  - rewrite lookup_insert_eq. eauto.
  - rewrite Hc. eauto.
Qed.

Lemma Barge_rate_and_price_witness :
  exists c p,
    get_price (instrument_base (ICrane crane_mounted)) "armour" "HMA_300_1000" "cost" = Ok c
    /\ fst (get_production_rate (instrument_base (ICrane crane_mounted))
                                "armour" "HMA_300_1000") = Ok p
    /\ get_price (barge_base barge_priced) "armour" "HMA_300_1000" "cost" = Ok (c + 2)
    /\ get_production_rate (barge_base barge_priced) "armour" "HMA_300_1000"
       = (Ok (p - 5), barge_base barge_priced).
Proof.
  apply (Barge_rate_and_price "barge" 0 (ICrane crane_mounted) 1 1 5 2 None 2
           None None None barge_priced "armour" "HMA_300_1000");
    [reflexivity | vm_compute; reflexivity].
Defined.

(** ** Truck, plate feeder and vessel *)

Lemma Qmax_from_ub (x : Q) (l : list Q) :
  x <= Qmax_from x l /\ Forall (fun y => y <= Qmax_from x l) l.
Proof.
  unfold Qmax_from. revert x. induction l as [|y l IH]; intros x; cbn.
  - split; [apply Qle_refl | constructor].
  - destruct (IH (if Qgtb y x then y else x)) as [Hm Hl].
    destruct (Qgtb y x) eqn:E.
    + apply Qgtb_true in E. split; [lra|]. constructor; [exact Hm | exact Hl].
    + apply Qgtb_false in E. split; [exact Hm|]. constructor; [lra | exact Hl].
Qed.

Lemma Qmin_from_lb (x : Q) (l : list Q) :
  Qmin_from x l <= x /\ Forall (fun y => Qmin_from x l <= y) l.
Proof.
  unfold Qmin_from. revert x. induction l as [|y l IH]; intros x; cbn.
  - split; [apply Qle_refl | constructor].
  - destruct (IH (if Qltb y x then y else x)) as [Hm Hl].
    destruct (Qltb y x) eqn:E.
    + apply Qltb_true in E. split; [lra|]. constructor; [exact Hm | exact Hl].
    + apply not_true_iff_false in E. rewrite Qltb_true in E. apply Qnot_lt_le in E.
      split; [exact Hm|]. constructor; [lra | exact Hl].
Qed.

Lemma py_max_le (l : list Q) (m c : Q) :
  py_max l = Ok m -> (m <= c <-> Forall (fun y => y <= c) l).
Proof.
  destruct l as [|x l]; [discriminate|]. intros [= <-].
  destruct (Qmax_from_ub x l) as [Hx Hl]. split.
  - intros Hc. constructor; [lra|]. eapply Forall_impl; [exact Hl|]. cbn. intros y Hy. lra.
  - intros Hall. assert (Hin := Qmax_from_In x l).
    rewrite Forall_forall in Hall. apply Hall, list_elem_of_In, Hin.
Qed.

Lemma py_min_ge (l : list Q) (m c : Q) :
  py_min l = Ok m -> (c <= m <-> Forall (fun y => c <= y) l).
Proof.
  destruct l as [|x l]; [discriminate|]. intros [= <-].
  destruct (Qmin_from_lb x l) as [Hx Hl]. split.
  - intros Hc. constructor; [lra|]. eapply Forall_impl; [exact Hl|]. cbn. intros y Hy. lra.
  - intros Hall. assert (Hin := Qmin_from_In x l).
    rewrite Forall_forall in Hall. apply Hall, list_elem_of_In, Hin.
Qed.

Lemma py_max2_ge (a b h : Q) : h <= py_max2 a b <-> h <= a \/ h <= b.
Proof.
  unfold py_max2. destruct (Qgtb b a) eqn:E.
  - apply Qgtb_true in E. split; [auto|]. intros [H|H]; lra.
  - apply Qgtb_false in E. split; [auto|]. intros [H|H]; lra.
Qed.

(** [Truck.install] returns true exactly when the grading is allowed, the
    lowest point of the section or the built elevation is at least [h_dry]
    above the water, and the top is long enough to stand on; the standing
    length is required also when the low point is dry.  The working level
    is left on the Truck. *)
Theorem Truck_install_decision
    (t : Truck) (layer g : string) (ymax0 : Q) (sec : list coord) (top : ext) (y_start : Q) :
  py_min (map snd sec) = Ok y_start ->
  exists b,
    fst (Truck_install t layer g ymax0 sec top) = Ok b
    /\ (b = true <->
        is_Some (design_type (truck_base t) !! g)
        /\ (waterlvl (truck_base t) + truck_h_dry t <= y_start
            \/ waterlvl (truck_base t) + truck_h_dry t <= ymax0)
        /\ ext_geb top (truck_required_length t) = true)
    /\ truck_level (snd (Truck_install t layer g ymax0 sec top))
       = Some (py_max2 (y_start - waterlvl (truck_base t)) (ymax0 - waterlvl (truck_base t))).
Proof.
  intros Hmin. assert (Hne : sec ≠ []) by (intros ->; discriminate).
  unfold Truck_install. rewrite (unzip_coords_ok _ Hne), Hmin. cbn [fst snd truck_level].
  eexists. split; [reflexivity|]. split; [|reflexivity].
  rewrite !andb_true_iff, has_grading_true, Qgeb_true, py_max2_ge.
  split; intros (H1 & H2 & H3); (split; [exact H1|]); (split; [|exact H3]);
    destruct H2 as [H2|H2]; [left|right|left|right]; lra.
Qed.

Lemma Truck_install_decision_witness :
  exists b,
    fst (Truck_install truck_mounted "core" "HMA_300_1000" 5 section_below_deck (Fin 6))
    = Ok b
    /\ (b = true <->
        is_Some (design_type (truck_base truck_mounted) !! "HMA_300_1000")
        /\ (waterlvl (truck_base truck_mounted) + truck_h_dry truck_mounted <= 3
            \/ waterlvl (truck_base truck_mounted) + truck_h_dry truck_mounted <= 5)
        /\ ext_geb (Fin 6) (truck_required_length truck_mounted) = true)
    /\ truck_level
         (snd (Truck_install truck_mounted "core" "HMA_300_1000" 5 section_below_deck (Fin 6)))
       = Some (py_max2 (3 - waterlvl (truck_base truck_mounted))
                       (5 - waterlvl (truck_base truck_mounted))).
Proof.
  apply (Truck_install_decision truck_mounted "core" "HMA_300_1000" 5 section_below_deck
           (Fin 6) 3).
  reflexivity.
Defined.

(** [Vessel.install] returns true exactly when the grading is allowed and
    no point of the section lies above the keel clearance
    waterlvl - (installation_waterdepth + ukc). *)
Theorem Vessel_install_decision (v : Vessel) (sec : list coord) (layer g : string) :
  sec ≠ [] ->
  exists b,
    Vessel_install v sec layer g = Ok b
    /\ (b = true <->
        is_Some (design_type (vessel_base v) !! g)
        /\ Forall (fun c => snd c <= waterlvl (vessel_base v)
                                     - (vessel_installation_waterdepth v + vessel_ukc v))
                  sec).
Proof.
  intros Hne. unfold Vessel_install. rewrite (unzip_coords_ok _ Hne). cbn [mbind result_bind].
  destruct (py_max_ok (map snd sec)) as [hi Hhi]; [apply map_nonempty, Hne|].
  rewrite Hhi. cbn [mbind result_bind]. eexists. split; [reflexivity|].
  rewrite andb_true_iff, has_grading_true, Qgeb_true, (py_max_le _ _ _ Hhi).
  rewrite Forall_map. reflexivity.
Qed.

Lemma Vessel_install_decision_witness :
  exists b,
    Vessel_install vessel_draft3 section_toe "core" "HMA_300_1000" = Ok b
    /\ (b = true <->
        is_Some (design_type (vessel_base vessel_draft3) !! "HMA_300_1000")
        /\ Forall (fun c => snd c <= waterlvl (vessel_base vessel_draft3)
                                     - (vessel_installation_waterdepth vessel_draft3
                                        + vessel_ukc vessel_draft3))
                  section_toe).
Proof.
  apply (Vessel_install_decision vessel_draft3 section_toe "core" "HMA_300_1000").
  discriminate.
Defined.

(** [PlateFeeder.install] without a [level] works from the higher of the
    lowest point and the built elevation, taken relative to the water,
    and compares the top elevation of the section with that relative
    level: when it returns true on top of what is built
    ([ymax <= y_start]), the section is no thicker than
    [top_installation] less the water level. *)
Theorem PlateFeeder_install_from_land
    (p : PlateFeeder) (layer g : string) (ymax0 : Q) (sec : list coord) (y_start y_top : Q) :
  py_min (map snd sec) = Ok y_start ->
  py_max (map snd sec) = Ok y_top ->
  exists b,
    PlateFeeder_install p layer g ymax0 sec None = Ok b
    /\ (b = true ->
        is_Some (design_type (feeder_base p) !! g)
        /\ (waterlvl (feeder_base p) + feeder_h_dry p <= y_start
            \/ waterlvl (feeder_base p) + feeder_h_dry p <= ymax0)
        /\ (ymax0 <= y_start ->
            y_top - y_start <= feeder_top_installation p - waterlvl (feeder_base p))).
Proof.
  intros Hmin Hmax. assert (Hne : sec ≠ []) by (intros ->; discriminate).
  unfold PlateFeeder_install. rewrite (unzip_coords_ok _ Hne). cbn [mbind result_bind].
  rewrite Hmin. cbn [mbind result_bind]. rewrite Hmax. cbn [mbind result_bind].
  eexists. split; [reflexivity|].
  rewrite !andb_true_iff, has_grading_true, Qgeb_true, py_max2_ge.
  intros (H1 & H2 & H3). apply Qle_bool_iff in H3. split; [exact H1|]. split.
  - destruct H2 as [H2|H2]; [left|right]; lra.
  - intros Hy. revert H3. unfold py_max2.
    destruct (Qgtb (ymax0 - waterlvl (feeder_base p)) (y_start - waterlvl (feeder_base p)))
      eqn:E; [apply Qgtb_true in E | apply Qgtb_false in E]; intros H3; lra.
Qed.

Lemma PlateFeeder_install_from_land_witness :
  exists b,
    PlateFeeder_install feeder_low "core" "HMA_300_1000" 3 section_below_deck None = Ok b
    /\ (b = true ->
        is_Some (design_type (feeder_base feeder_low) !! "HMA_300_1000")
        /\ (waterlvl (feeder_base feeder_low) + feeder_h_dry feeder_low <= 3
            \/ waterlvl (feeder_base feeder_low) + feeder_h_dry feeder_low <= 3)
        /\ (3 <= 3 ->
            4 - 3 <= feeder_top_installation feeder_low - waterlvl (feeder_base feeder_low))).
Proof.
  apply (PlateFeeder_install_from_land feeder_low "core" "HMA_300_1000" 3
           section_below_deck 3 4); reflexivity.
Defined.

(** ** Sides *)

(** [location_equipment] treats the two sides alike: for a section
    strictly on the right, the section mirrored to the left gives the
    mirrored x-location, the same elevation and the other flag, on land
    and from a Barge. *)
Theorem location_equipment_mirrored
    (args : list Q) (xpoint : Q) (sec : list coord) (is_barge : bool) (yiw height ymax0 : Q) :
  sec ≠ [] ->
  Forall (fun c => 0 < fst c) sec ->
  exists x x' y flip,
    location_equipment args xpoint sec is_barge yiw height ymax0 = Ok (x, y, flip)
    /\ location_equipment args xpoint (mirror_section sec) is_barge yiw height ymax0
       = Ok (x', y, negb flip)
    /\ x' == - x.
Proof.
  intros Hne Hpos.
  assert (Hr : forallb (fun x => Qgeb x 0) (map fst sec) = true).
  { apply right_side_forallb. eapply Forall_impl; [exact Hpos|]. cbn. intros c Hc. lra. }
  assert (Hm : mirror_section sec ≠ []) by (apply map_nonempty, Hne).
  assert (Hl : forallb (fun x => Qgeb x 0) (map fst (mirror_section sec)) = false).
  { apply not_true_iff_false. rewrite right_side_forallb.
    destruct sec as [|c sec]; [congruence|]. intros H. inversion H as [|? ? Hc _]; subst.
    inversion Hpos as [|? ? Hc' _]; subst. cbn in Hc. lra. }
  unfold location_equipment.
  rewrite (unzip_coords_ok _ Hne), (unzip_coords_ok _ Hm). cbn [mbind result_bind].
  rewrite Hr, Hl.
  destruct is_barge; eexists _, _, _, _; (split; [reflexivity|]);
    (split; [reflexivity|]); ring.
Qed.

Lemma location_equipment_mirrored_witness :
  exists x x' y flip,
    location_equipment [3] 4 section_right_of_axis false 0 0 2 = Ok (x, y, flip)
    /\ location_equipment [3] 4 (mirror_section section_right_of_axis) false 0 0 2
       = Ok (x', y, negb flip)
    /\ x' == - x.
Proof.
  apply (location_equipment_mirrored [3] 4 section_right_of_axis false 0 0 2).
  - discriminate.
  - repeat constructor.
Defined.

(** ** Rows and radii that are selected *)

(** The chart row looked up for an elevation is the nearest one at or
    beyond it: the highest row at or below a negative elevation, the
    lowest row at or above any other.  The side is chosen by the sign of
    the elevation itself. *)
Theorem nearest_row_nearest (keys : list Q) (d k : Q) :
  nearest_row keys d = Some k ->
  In k keys
  /\ (d < 0 -> k <= d /\ forall k', In k' keys -> k' <= d -> k' <= k)
  /\ (0 <= d -> d <= k /\ forall k', In k' keys -> d <= k' -> k <= k').
Proof.
  intros H. split; [apply (nearest_row_In _ _ _ H)|].
  revert H. unfold nearest_row. destruct (Qltb d 0) eqn:Ed.
  - apply Qltb_true in Ed.
    destruct (List.filter (fun k => Qle_bool k d) keys) as [|x r] eqn:E; [discriminate|].
    intros [= <-]. split; [|intros H0; lra]. intros _.
    assert (Hin := Qmax_from_In x r). rewrite <- E in Hin.
    apply filter_In in Hin as [_ Hle]. apply Qle_bool_iff in Hle. split; [exact Hle|].
    intros k' Hk' Hk'd.
    assert (Hf : In k' (x :: r)).
    { rewrite <- E. apply filter_In. split; [exact Hk' | apply Qle_bool_iff, Hk'd]. }
    destruct (Qmax_from_ub x r) as [Hx Hr]. destruct Hf as [<-|Hf]; [exact Hx|].
    rewrite Forall_forall in Hr. apply Hr, list_elem_of_In, Hf.
  - apply not_true_iff_false in Ed. rewrite Qltb_true in Ed. apply Qnot_lt_le in Ed.
    destruct (List.filter (fun k => Qgeb k d) keys) as [|x r] eqn:E; [discriminate|].
    intros [= <-]. split; [intros H0; lra|]. intros _.
    assert (Hin := Qmin_from_In x r). rewrite <- E in Hin.
    apply filter_In in Hin as [_ Hle]. apply Qgeb_true in Hle. split; [exact Hle|].
    intros k' Hk' Hk'd.
    assert (Hf : In k' (x :: r)).
    { rewrite <- E. apply filter_In. split; [exact Hk' | apply Qgeb_true, Hk'd]. }
    destruct (Qmin_from_lb x r) as [Hx Hr]. destruct Hf as [<-|Hf]; [exact Hx|].
    rewrite Forall_forall in Hr. apply Hr, list_elem_of_In, Hf.
Qed.

Lemma nearest_row_nearest_witness :
  In 1 [3; 1; -1]
  /\ (2 # 3 < 0 -> 1 <= 2 # 3 /\ forall k', In k' [3; 1; -1] -> k' <= 2 # 3 -> k' <= 1)
  /\ (0 <= 2 # 3 -> 2 # 3 <= 1 /\ forall k', In k' [3; 1; -1] -> 2 # 3 <= k' -> 1 <= k').
Proof. apply (nearest_row_nearest [3; 1; -1] (2 # 3) 1). reflexivity. Defined.

(** The radius the Crane works at is the smallest tabulated radius that
    reaches the farthest point of the section; none is selected exactly
    when every tabulated radius is too short. *)
Theorem select_radius_least (radii : list Q) (dist : Q) :
  match select_radius radii dist with
  | Some r => In r radii /\ dist <= r /\ forall r', In r' radii -> dist <= r' -> r <= r'
  | None => Forall (fun r => r < dist) radii
  end.
Proof.
  unfold select_radius.
  destruct (List.filter (fun r => Qgeb r dist) radii) as [|x rs] eqn:E.
  - apply Forall_forall. intros r Hr. apply list_elem_of_In in Hr.
    apply Qnot_le_lt. intros Hle.
    assert (Hin : In r (List.filter (fun r => Qgeb r dist) radii)).
    { apply filter_In. split; [exact Hr | apply Qgeb_true, Hle]. }
    rewrite E in Hin. destruct Hin.
  - assert (Hin := Qmin_from_In x rs). rewrite <- E in Hin.
    apply filter_In in Hin as [Hin Hle]. apply Qgeb_true in Hle.
    split; [exact Hin|]. split; [exact Hle|]. intros r' Hr' Hd.
    assert (Hf : In r' (x :: rs)).
    { rewrite <- E. apply filter_In. split; [exact Hr' | apply Qgeb_true, Hd]. }
    destruct (Qmin_from_lb x rs) as [Hx Hr]. destruct Hf as [<-|Hf]; [exact Hx|].
    rewrite Forall_forall in Hr. apply Hr, list_elem_of_In, Hf.
Qed.

Lemma tuple_max_from_In (x : coord) (l : list coord) : In (tuple_max_from x l) (x :: l).
Proof.
  unfold tuple_max_from. revert x. induction l as [|y l IH]; intros x; cbn; [auto|].
  destruct (IH (if tuple_gtb y x then y else x)) as [H|H]; [|auto].
  rewrite <- H. destruct (tuple_gtb y x); auto.
Qed.

(** The capacities [Crane.install] chooses from are those tabulated at
    the selected radius that are at least the mass.  The test
    [mass <= M_max] holds exactly when there is one; M_max is then the
    largest of them and the boom length is one tabulated with them;
    otherwise M_max is -inf and radius and boom length are 0. *)
Theorem Crane_lift_capacity (c : Crane) (dist m : Q) :
  let df := stacked_at (crane_loading_chart c)
                       (select_radius (map fst (crane_loading_chart c)) dist) m in
  Forall (fun e => m <= snd e) df
  /\ (le_ext m (fst (fst (Crane_lift c dist m))) = true <-> df ≠ [])
  /\ match Crane_lift c dist m with
     | (NegInf, r, l_boom) => df = [] /\ r = 0 /\ l_boom = 0
     | (Fin M, r, l_boom) =>
         m <= M /\ In M (map snd df) /\ Forall (fun e => snd e <= M) df
         /\ In (r, l_boom) (map fst df)
     | (PosInf, _, _) => False
     end.
Proof.
  cbn zeta.
  assert (Hge : Forall (fun e => m <= snd e)
                  (stacked_at (crane_loading_chart c)
                     (select_radius (map fst (crane_loading_chart c)) dist) m)).
  { unfold stacked_at. destruct (select_radius _ dist) as [r|]; [|constructor].
    apply Forall_forall. intros e He. apply list_elem_of_In, filter_In in He as [_ He].
    apply Qgeb_true, He. }
  split; [exact Hge|]. unfold Crane_lift.
  destruct (stacked_at _ _ m) as [|e df] eqn:E.
  - cbn. split; [split; [discriminate | congruence] | auto].
  - destruct (tuple_max_from (fst e) (map fst df)) as [r l_boom] eqn:Et. cbn [fst snd].
    assert (HM := Qmax_from_In (snd e) (map snd df)).
    destruct (Qmax_from_ub (snd e) (map snd df)) as [Hx Hl].
    assert (Hm : m <= Qmax_from (snd e) (map snd df)).
    { inversion Hge; subst. lra. }
    split; [split; [discriminate | intros _; apply Qgeb_true, Hm]|].
    split; [exact Hm|]. split; [exact HM|]. split.
    + constructor; [exact Hx|]. rewrite Forall_map in Hl. exact Hl.
    + rewrite <- Et. apply (tuple_max_from_In (fst e) (map fst df)).
Qed.

(** A Crane whose grading is allowed places every section whose lowest
    point is at or above waterlvl + h_dry, whatever the mass, the chart,
    the standing length and the slope. *)
Theorem Crane_install_dry_low_point (c : Crane) (a : install_args) (n : nat) (y_start : Q) :
  has_grading (crane_base c) (grading_layer a) = true ->
  py_min (map snd (section_coords a)) = Ok y_start ->
  waterlvl (crane_base c) + crane_h_dry c <= y_start ->
  Crane_install (S n) c a = Some (Ok true).
Proof.
  intros Hg Hmin Hdry.
  assert (Hne : section_coords a ≠ [])
    by (intros E; rewrite E in Hmin; discriminate).
  destruct (Crane_direct_ok c a Hne) as (lo & hi & dist & Hlo & _ & _ & Hd).
  rewrite Hmin in Hlo. injection Hlo as <-.
  apply run_install_one. unfold Crane_install_body. rewrite Hd.
  assert (Hi : forall M b, Crane_feasible c a y_start M b = true).
  { intros M b. unfold Crane_feasible. rewrite Hg.
    assert (Hq : Qgeb (y_start - waterlvl (crane_base c)) (crane_h_dry c) = true)
      by (apply Qgeb_true; lra).
    rewrite Hq. reflexivity. }
  rewrite Hi. unfold fallback_due. rewrite andb_false_r. reflexivity.
Qed.

Lemma Crane_install_dry_low_point_witness :
  Crane_install 1 crane_on_crest (call_dry (1, 2)) = Some (Ok true).
Proof.
  apply (Crane_install_dry_low_point crane_on_crest (call_dry (1, 2)) 0 1);
    [vm_compute; reflexivity | reflexivity | vm_compute; discriminate].
Defined.

(** ** The chart polygon is a side channel *)

Lemma run_install_ext (body body' : install_args -> outcome) :
  (forall a, body a = body' a) ->
  forall fuel a, run_install body fuel a = run_install body' fuel a.
Proof.
  intros H fuel. induction fuel as [|n IH]; intros a; cbn; [reflexivity|].
  rewrite <- H. destruct (body a); auto.
Qed.

Lemma Excavator_reach_same_raises (PW PW' : geometry) (e : Excavator) (a : install_args) :
  same_raises PW PW' -> Excavator_reach PW e a = Excavator_reach PW' e a.
Proof.
  intros H. unfold Excavator_reach.
  destruct (unzip_coords _) as [[xs ys]|x]; [|reflexivity]. cbn [mbind result_bind].
  destruct (install_location _ a) as [[[xloc yloc] flip]|x]; [|reflexivity].
  cbn [mbind result_bind]. unfold chart_location.
  destruct (chart_polygon e xloc yloc flip) as [[ring lc]|x]; [|reflexivity].
  cbn [mbind result_bind]. specialize (H ring (section_coords a)).
  destruct (PW ring (section_coords a)), (PW' ring (section_coords a));
    try contradiction; cbn [mbind result_bind]; [reflexivity | congruence].
Qed.

(** What shapely finds ([within]) never reaches the decision: two runs of
    [Excavator.install] in which shapely raises alike return the same,
    whatever it says about the section lying within the chart polygon. *)
Theorem Excavator_install_ignores_within
    (PW PW' : geometry) (fuel : nat) (e : Excavator) (a : install_args) :
  same_raises PW PW' ->
  Excavator_install PW fuel e a = Excavator_install PW' fuel e a.
Proof.
  intros H. apply run_install_ext. intros a0. unfold Excavator_install_body.
  rewrite (Excavator_reach_same_raises PW PW' e a0 H). reflexivity.
Qed.

Lemma Excavator_install_ignores_within_witness :
  Excavator_install accepting 2 excavator_two_rows (call_on_top "HMA_300_1000" 2)
  = Excavator_install not_within 2 excavator_two_rows (call_on_top "HMA_300_1000" 2).
Proof.
  apply (Excavator_install_ignores_within accepting not_within 2 excavator_two_rows
           (call_on_top "HMA_300_1000" 2)).
  intros ring sec. exact I.
Defined.

(** ** Mirroring the chart *)

Lemma dict_set_Forall2 {V : Type} (R : V -> V -> Prop) (k : Q) (v v' : V)
    (d d' : list (Q * V)) :
  R v v' ->
  Forall2 (fun r r' => fst r = fst r' /\ R (snd r) (snd r')) d d' ->
  Forall2 (fun r r' => fst r = fst r' /\ R (snd r) (snd r'))
          (dict_set k v d) (dict_set k v' d').
Proof.
  intros Hv. induction 1 as [|[k1 v1] [k2 v2] d d' [Hk Hr] Hd IH]; cbn.
  - constructor; [split; auto | constructor].
  - cbn in Hk. subst k2. destruct (Qeq_bool k1 k).
    + constructor; [split; auto | exact Hd].
    + constructor; [split; auto | exact IH].
Qed.

Lemma translate_rows_Forall2 (f g : Q -> Q) (yloc : Q) (R : chart_row -> chart_row -> Prop)
    (rows acc acc' : list (Q * chart_row)) :
  (forall items, R {| row_x := map f (row_x items); row_w := row_w items |}
                   {| row_x := map g (row_x items); row_w := row_w items |}) ->
  Forall2 (fun r r' => fst r = fst r' /\ R (snd r) (snd r')) acc acc' ->
  Forall2 (fun r r' => fst r = fst r' /\ R (snd r) (snd r'))
          (fold_left (translate_row f yloc) rows acc)
          (fold_left (translate_row g yloc) rows acc').
Proof.
  intros HR. revert acc acc'. induction rows as [|[k items] rows IH]; intros acc acc' H; cbn.
  - exact H.
  - apply IH, dict_set_Forall2; [apply HR | exact H].
Qed.

(** The chart used for the payload lookup on the mirrored side has the
    rows and payloads of the chart on the unmirrored side, each reach
    reflected in the vertical through the equipment. *)
Theorem chart_polygon_mirrored
    (e : Excavator) (xloc yloc : Q) (ring ring' : list coord) (lc lc' : list (Q * chart_row)) :
  chart_polygon e xloc yloc false = Ok (ring, lc) ->
  chart_polygon e xloc yloc true = Ok (ring', lc') ->
  Forall2 (mirrored_row xloc) lc lc'.
Proof.
  unfold chart_polygon.
  destruct (chart_ring e xloc yloc) as [points|x]; [|discriminate]. cbn [mbind result_bind].
  unfold rotate_loading_chart.
  destruct (unzip_coords points) as [[xs ys]|x]; [|discriminate]. cbn [mbind result_bind].
  intros [= _ <-] [= _ <-]. unfold translate_chart.
  eapply Forall2_impl.
  - apply (translate_rows_Forall2 _ _ yloc
             (fun r r' => row_w r = row_w r'
                          /\ Forall2 (fun x x' => x' == 2 * xloc - x) (row_x r) (row_x r'))).
    + intros items. cbn. split; [reflexivity|].
      induction (row_x items) as [|x l IH]; cbn; constructor; [ring | exact IH].
    + constructor.
  - intros r r' (Hk & Hw & Hx). repeat split; assumption.
Qed.

Lemma chart_polygon_mirrored_witness :
  Forall2 (mirrored_row 1)
    (translate_chart excavator_two_rows (fun x => x + 1) 2)
    (translate_chart excavator_two_rows (fun x => x - 2 * (x - 1) - 1) 2).
Proof.
  eapply (chart_polygon_mirrored excavator_two_rows 1 2); reflexivity.
Defined.

(** ** The paths of [Barge.install] *)

Lemma clearance_met_test (self : Barge) (sec : list coord) (y_end : Q) :
  py_max (map snd sec) = Ok y_end ->
  Qgeb y_end (waterlvl (barge_base self) - barge_installation_waterdepth self
              - barge_ukc self)
  = clearance_met self sec.
Proof. intros H. unfold clearance_met. rewrite H. reflexivity. Qed.

Lemma Crane_install_slope_off (c : Crane) (a : install_args) (n : nat) :
  section_coords a ≠ [] ->
  slope a = (0, 0) ->
  exists i, Crane_install (S n) c a = Some (Ok i).
Proof.
  intros Hne Hs.
  destruct (Crane_direct_ok c a Hne) as (lo & hi & dist & _ & _ & _ & Hd).
  eexists. apply run_install_one. unfold Crane_install_body. rewrite Hd.
  unfold fallback_due. rewrite Hs. cbn [fst snd Qeq_bool]. rewrite andb_false_r. reflexivity.
Qed.

(** A mounted PlateFeeder is called with the deck as its working level:
    [Barge.install] returns the feeder's decision at that level, made with
    the feeder's own dry margin, and leaves the Barge as it is. *)
Theorem Barge_install_plate_feeder
    (PW : geometry) (fuel : nat) (self : Barge) (p : PlateFeeder) (layer g : string)
    (slope : Q * Q) (sec : list coord) (xmax_top mass : Q) :
  barge_instance self = IPlateFeeder p ->
  has_grading (feeder_base p) g = true ->
  sec ≠ [] ->
  let deck := waterlvl (barge_base self) + barge_height self in
  exists y_top,
    py_max (map snd sec) = Ok y_top
    /\ Barge_install PW fuel self layer g slope sec xmax_top mass
       = Some (Ok (Qgeb deck (feeder_h_dry p)
                   && Qle_bool y_top (deck + feeder_top_installation p)), self).
Proof.
  intros Hi Hg Hne deck. unfold Barge_install.
  destruct (Barge_prefix_ok sec Hne) as (xtop & y_end & -> & Hend).
  rewrite Hi. cbn [instrument_base]. rewrite Hg.
  unfold Barge_near. destruct slope as [V H].
  assert (E : forall b : bool,
             (if b then Some (Ok false, IPlateFeeder p) else Some (Ok false, IPlateFeeder p))
             = Some (@Ok bool false, IPlateFeeder p)) by (intros []; reflexivity).
  rewrite E. cbn [mbind option_bind]. unfold Barge_deck.
  rewrite PlateFeeder_install_kw_deck.
  destruct (PlateFeeder_install_level_decision p layer g
              (waterlvl (barge_base self) + barge_height self) sec
              (waterlvl (barge_base self) + barge_height self) Hne) as (y_top & Hy & ->).
  exists y_top. split; [exact Hy|]. rewrite Hg. cbn [andb mbind option_bind].
  rewrite <- Hi, set_instance_id. reflexivity.
Qed.

(** With a Crane mounted and the section below the floating clearance,
    [Barge.install] returns true for every mass and geometry and leaves
    the Crane with its own water level and dry margin. *)
Theorem Barge_install_crane_below_clearance
    (PW : geometry) (n : nat) (self : Barge) (c : Crane) (layer g : string)
    (slope : Q * Q) (sec : list coord) (xmax_top mass : Q) :
  barge_instance self = ICrane c ->
  has_grading (crane_base c) g = true ->
  sec ≠ [] ->
  clearance_met self sec = false ->
  Barge_install PW (S n) self layer g slope sec xmax_top mass = Some (Ok true, self).
Proof.
  intros Hi Hg Hne Hcl. unfold Barge_install.
  destruct (Barge_prefix_ok sec Hne) as (xtop & y_end & -> & Hend).
  rewrite Hi. cbn [instrument_base]. rewrite Hg.
  unfold Barge_near. destruct slope as [V H].
  rewrite (clearance_met_test self sec y_end Hend), Hcl. cbn [mbind option_bind].
  unfold Barge_deck.
  destruct (py_min_ok (map fst sec)) as [lo ->]; [apply map_nonempty, Hne|].
  destruct (py_max_ok (map fst sec)) as [hi ->]; [apply map_nonempty, Hne|].
  cbn [mbind result_bind].
  edestruct (Crane_install_slope_off c) as [i ->]; [exact Hne | reflexivity |].
  cbn [mbind option_bind]. rewrite <- Hi, set_instance_id. reflexivity.
Qed.

(** With an Excavator mounted, the decision [Barge.install] returns is
    the one of the call made from the deck at the largest x of the
    section, with the Barge's water level and no dry margin, whether or
    not the section reaches into the clearance. *)
Theorem Barge_install_excavator_deck_call
    (PW : geometry) (fuel : nat) (self : Barge) (e : Excavator) (layer g : string)
    (slope : Q * Q) (sec : list coord) (xmax_top mass : Q) (b : bool) (self' : Barge) :
  barge_instance self = IExcavator e ->
  has_grading (exc_base e) g = true ->
  Barge_install PW fuel self layer g slope sec xmax_top mass = Some (Ok b, self') ->
  let w := waterlvl (barge_base self) in
  exists xequip,
    py_max (map fst sec) = Ok xequip
    /\ Excavator_install PW fuel (reparent_excavator w e)
         (mounted_args layer g (w + barge_height self) sec xmax_top mass
            (xequip, w - barge_installation_waterdepth self + barge_height self))
       = Some (Ok b).
Proof.
  intros Hi Hg. unfold Barge_install.
  destruct (_ ← py_max_tuple sec; _) as [[[xtop xs] y_end]|x] eqn:Ep; [|discriminate].
  apply Barge_prefix_inv in Ep as (Hne & -> & Hend).
  rewrite Hi. cbn [instrument_base]. rewrite Hg.
  destruct (Barge_near _ _ _ _ _ _ _ _ _ _) as [[[r1|x] inst1]|] eqn:E1;
    cbn [mbind option_bind]; [|discriminate..].
  assert (inst1 = IExcavator e
          \/ inst1 = IExcavator (reparent_excavator (waterlvl (barge_base self)) e))
    as Hinst.
  { revert E1. unfold Barge_near. destruct slope as [V H].
    destruct (Qgeb y_end _); [|intros [= _ <-]; auto].
    destruct (Qeq_bool V 0); [discriminate|].
    destruct (location_equipment _ _ _ _ _ _ _) as [[[xe ye] fl]|x]; [|discriminate].
    destruct (Excavator_install PW fuel _ _); cbn [mbind option_bind]; [|discriminate].
    intros [= _ <-]. auto. }
  intros Hdeck. cbv zeta.
  assert (exists xequip,
             py_max (map fst sec) = Ok xequip
             /\ Excavator_install PW fuel
                  (reparent_excavator (waterlvl (barge_base self)) e)
                  (mounted_args layer g (waterlvl (barge_base self) + barge_height self)
                     sec xmax_top mass
                     (xequip, waterlvl (barge_base self)
                              - barge_installation_waterdepth self + barge_height self))
                = Some (Ok b)) as Hgoal.
  { revert Hdeck. unfold Barge_deck.
    destruct Hinst as [-> | ->];
      (destruct (py_max (map fst sec)) as [xq|x]; [|discriminate]);
      (destruct (Excavator_install PW fuel _ _) as [[r'|x]|] eqn:Ecall;
       cbn [mbind option_bind]; [|discriminate..]);
      intros [= <- _]; exists xq; (split; [reflexivity | exact Ecall]). }
  exact Hgoal.
Qed.

Lemma Barge_install_plate_feeder_witness :
  exists y_top,
    py_max (map snd section_below_deck) = Ok y_top
    /\ Barge_install accepting 0 barge_with_feeder "core" "HMA_300_1000" (1, 2)
         section_below_deck 6 1
       = Some (Ok (Qgeb (waterlvl (barge_base barge_with_feeder)
                         + barge_height barge_with_feeder) (feeder_h_dry feeder_low)
                   && Qle_bool y_top
                        (waterlvl (barge_base barge_with_feeder)
                         + barge_height barge_with_feeder
                         + feeder_top_installation feeder_low)),
               barge_with_feeder).
Proof.
  apply (Barge_install_plate_feeder accepting 0 barge_with_feeder feeder_low "core"
           "HMA_300_1000" (1, 2) section_below_deck 6 1);
    [reflexivity | vm_compute; reflexivity | discriminate].
Defined.

Lemma Barge_install_crane_below_clearance_witness :
  Barge_install accepting 1 barge_with_crane "armour" "HMA_300_1000" (1, 1)
    section_deep 4 100
  = Some (Ok true, barge_with_crane).
Proof.
  apply (Barge_install_crane_below_clearance accepting 0 barge_with_crane crane_mounted
           "armour" "HMA_300_1000" (1, 1) section_deep 4 100);
    [reflexivity | vm_compute; reflexivity | discriminate | vm_compute; reflexivity].
Defined.

Lemma Barge_install_excavator_deck_call_witness :
  exists xequip,
    py_max (map fst section_shallow) = Ok xequip
    /\ Excavator_install accepting 1
         (reparent_excavator (waterlvl (barge_base barge_with_excavator)) excavator_two_rows)
         (mounted_args "armour" "HMA_300_1000"
            (waterlvl (barge_base barge_with_excavator) + barge_height barge_with_excavator)
            section_shallow 4 5
            (xequip, waterlvl (barge_base barge_with_excavator)
                     - barge_installation_waterdepth barge_with_excavator
                     + barge_height barge_with_excavator))
       = Some (Ok true).
Proof.
  apply (Barge_install_excavator_deck_call accepting 1 barge_with_excavator
           excavator_two_rows "armour" "HMA_300_1000" (1, 1) section_shallow 4 5 true
           (set_instance (IExcavator (reparent_excavator 0 excavator_two_rows))
                         barge_with_excavator));
    [reflexivity | vm_compute; reflexivity | vm_compute; reflexivity].
Defined.

(** When the section reaches into the clearance, a slope whose vertical
    part is 0 makes [Barge.install] raise ZeroDivisionError for a mounted
    Crane or Excavator, before the instrument is touched; [(0, 0)], the
    value the Barge itself passes on to switch the fallback off, is such
    a slope. *)
Theorem Barge_install_flat_slope
    (PW : geometry) (fuel : nat) (self : Barge) (layer g : string) (slope : Q * Q)
    (sec : list coord) (xmax_top mass : Q) :
  reach_mounted (barge_instance self) = true ->
  has_grading (instrument_base (barge_instance self)) g = true ->
  sec ≠ [] ->
  clearance_met self sec = true ->
  fst slope == 0 ->
  Barge_install PW fuel self layer g slope sec xmax_top mass
  = Some (Raise ZeroDivisionError, self).
Proof.
  intros Hi Hg Hne Hcl Hv. unfold Barge_install.
  destruct (Barge_prefix_ok sec Hne) as (xtop & y_end & -> & Hend).
  rewrite Hg. unfold Barge_near. destruct slope as [V H]. cbn [fst] in Hv.
  apply Qeq_bool_iff in Hv.
  rewrite (clearance_met_test self sec y_end Hend), Hcl, Hv.
  destruct (barge_instance self) eqn:Ei; try discriminate; cbn [mbind option_bind];
    rewrite <- Ei, set_instance_id; reflexivity.
Qed.

Lemma Barge_install_flat_slope_witness :
  Barge_install accepting 1 barge_with_crane "armour" "HMA_300_1000" (0, 0)
    section_submerged 4 100
  = Some (Raise ZeroDivisionError, barge_with_crane).
Proof.
  apply (Barge_install_flat_slope accepting 1 barge_with_crane "armour" "HMA_300_1000"
           (0, 0) section_submerged 4 100);
    [reflexivity | vm_compute; reflexivity | discriminate | vm_compute; reflexivity
    | reflexivity].
Defined.

(** Mounted equipment that is no Crane, Excavator, PlateFeeder or Truck
    is never asked: [Barge.install] returns false for every grading. *)
Theorem Barge_install_other_instrument
    (PW : geometry) (fuel : nat) (self : Barge) (o : Equipment) (layer g : string)
    (slope : Q * Q) (sec : list coord) (xmax_top mass : Q) :
  barge_instance self = IOther o ->
  sec ≠ [] ->
  Barge_install PW fuel self layer g slope sec xmax_top mass = Some (Ok false, self).
Proof.
  intros Hi Hne. unfold Barge_install.
  destruct (Barge_prefix_ok sec Hne) as (xtop & y_end & -> & Hend).
  rewrite Hi. destruct (has_grading _ g); [|reflexivity].
  unfold Barge_near. destruct slope as [V H].
  assert (E : forall b : bool,
             (if b then Some (Ok false, IOther o) else Some (Ok false, IOther o))
             = Some (@Ok bool false, IOther o)) by (intros []; reflexivity).
  rewrite E. cbn [mbind option_bind Barge_deck].
  rewrite <- Hi, set_instance_id. reflexivity.
Qed.

Lemma Barge_install_other_instrument_witness :
  Barge_install accepting 1 barge_with_other "armour" "HMA_300_1000" (1, 1)
    section_submerged 4 100
  = Some (Ok false, barge_with_other).
Proof.
  apply (Barge_install_other_instrument accepting 1 barge_with_other
           (vessel_base vessel_draft3) "armour" "HMA_300_1000" (1, 1) section_submerged
           4 100); [reflexivity | discriminate].
Defined.

(** ** Inputs that make [install] raise *)

(** The slope fallback divides by the vertical part of the slope: when
    the test has failed above the dry margin and the slope is (0, H) with
    H not 0, [Crane.install] raises ZeroDivisionError instead of returning
    a decision. *)
Theorem Crane_install_flat_slope (c : Crane) (a : install_args) (n : nat) (M : ext) :
  Crane_direct c a = Ok (M, false) ->
  waterlvl (crane_base c) + crane_h_dry c < ymax a ->
  fst (slope a) == 0 ->
  ~ snd (slope a) == 0 ->
  Crane_install (S n) c a = Some (Raise ZeroDivisionError).
Proof.
  intros Hd Hy Hv Hh. unfold Crane_install. cbn [run_install].
  unfold Crane_install_body. rewrite Hd.
  assert (Hf : fallback_due (waterlvl (crane_base c)) (crane_h_dry c) a false = true).
  { unfold fallback_due. rewrite (proj2 (Qgtb_true _ _) Hy). cbn [andb negb].
    destruct (Qeq_bool (snd (slope a)) 0) eqn:E;
      [apply Qeq_bool_iff in E; contradiction | rewrite andb_false_r; reflexivity]. }
  rewrite Hf. unfold slope_fallback. destruct (slope a) as [V H]. cbn [fst] in Hv.
  rewrite (proj2 (Qeq_bool_iff V 0) Hv). reflexivity.
Qed.

Lemma Crane_install_flat_slope_witness :
  Crane_install 1 crane_on_crest (call_from_crest (0, 1)) = Some (Raise ZeroDivisionError).
Proof.
  apply (Crane_install_flat_slope crane_on_crest (call_from_crest (0, 1)) 0 NegInf);
    [vm_compute; reflexivity | vm_compute; reflexivity | reflexivity | discriminate].
Defined.

(** A section without a point is no input of [install]: every class
    raises ValueError on it, the Barge included. *)
Theorem install_empty_section
    (PW : geometry) (n : nat) (E : equipment) (a : install_args) (level : option Q) :
  section_coords a = [] ->
  install_of PW (S n) E a level = Some (Raise ValueError).
Proof.
  intros Hs. destruct E as [t|p|e|c|v|b]; cbn [install_of].
  - unfold Truck_install. rewrite Hs. reflexivity.
  - unfold PlateFeeder_install. rewrite Hs. reflexivity.
  - unfold Excavator_install. cbn [run_install].
    unfold Excavator_install_body, Excavator_reach. rewrite Hs. reflexivity.
  - unfold Crane_install. cbn [run_install].
    unfold Crane_install_body, Crane_direct. rewrite Hs. reflexivity.
  - unfold Vessel_install. rewrite Hs. reflexivity.
  - unfold Barge_install. rewrite Hs. reflexivity.
Qed.

Lemma install_empty_section_witness :
  install_of accepting 1 (EBarge barge_with_crane) (call_without_section (1, 1)) None
  = Some (Raise ValueError).
Proof.
  apply (install_empty_section accepting 0 (EBarge barge_with_crane)
           (call_without_section (1, 1)) None).
  reflexivity.
Defined.

(** ** The rows of a chart *)

Lemma row_beyond_in_span (chart_keys : list Q) (yloc d lo hi : Q) :
  chart_span chart_keys = Some (lo, hi) ->
  row_beyond chart_keys yloc d <-> in_span lo hi yloc d.
Proof.
  destruct chart_keys as [|k ks]; [discriminate|]. intros [= <- <-].
  destruct (Qmin_from_lb k ks) as [Hlo Hlos]. destruct (Qmax_from_ub k ks) as [Hhi Hhis].
  assert (Hmin : forall key, In key (k :: ks) -> Qmin_from k ks <= key).
  { intros key [<-|Hin]; [exact Hlo|].
    rewrite Forall_forall in Hlos. apply Hlos, list_elem_of_In, Hin. }
  assert (Hmax : forall key, In key (k :: ks) -> key <= Qmax_from k ks).
  { intros key [<-|Hin]; [exact Hhi|].
    rewrite Forall_forall in Hhis. apply Hhis, list_elem_of_In, Hin. }
  unfold row_beyond, in_span. split.
  - intros [(Hd & key & Hin & Hk)|(Hd & key & Hin & Hk)].
    + left. split; [exact Hd|]. specialize (Hmin key Hin). lra.
    + right. split; [exact Hd|]. specialize (Hmax key Hin). lra.
  - intros [[Hd Hk]|[Hd Hk]].
    + left. split; [exact Hd|]. exists (Qmin_from k ks). split; [apply Qmin_from_In | exact Hk].
    + right. split; [exact Hd|]. exists (Qmax_from k ks). split; [apply Qmax_from_In | exact Hk].
Qed.

(** The elevation loop of [Excavator.install] (lines 638-652) is a range
    test: with a well-formed chart and a section of at least one point it
    raises nothing, and it takes its early [return False] exactly when
    some section elevation lies outside the rows of the chart: a negative
    elevation below the lowest row, any other above the highest row, the
    rows counted from the level the excavator stands at. *)
Theorem Excavator_reach_span
    (PW : geometry) (self : Excavator) (a : install_args) (lo hi : Q) :
  section_coords a ≠ [] ->
  wf_chart self = true ->
  geometry_accepts PW self (section_coords a) ->
  chart_span (map fst (exc_loading_chart self)) = Some (lo, hi) ->
  exists r, Excavator_reach PW self a = Ok r
            /\ (is_Some r <-> Forall (in_span lo hi (standing_level a))
                                     (np_unique (map snd (section_coords a)))).
Proof.
  intros Hne Hwf Hgeo Hspan.
  destruct (Excavator_reach_spec PW self a Hne Hwf Hgeo) as (r & Hr & Hcover).
  exists r. split; [exact Hr|]. rewrite Hcover. unfold rows_cover.
  apply Forall_iff. intros d. apply row_beyond_in_span, Hspan.
Qed.

Lemma Excavator_reach_span_witness :
  exists r, Excavator_reach accepting excavator_two_rows (call_on_top "HMA_300_1000" 2) = Ok r
            /\ (is_Some r <->
                Forall (in_span (-2) 0 (standing_level (call_on_top "HMA_300_1000" 2)))
                       (np_unique (map snd (section_coords (call_on_top "HMA_300_1000" 2))))).
Proof.
  apply (Excavator_reach_span accepting excavator_two_rows (call_on_top "HMA_300_1000" 2)).
  - discriminate.
  - reflexivity.
  - apply geometry_accepts_accepting.
  - reflexivity.
Defined.

(** ** The excavators with a built-in loading chart *)

(** [Caterpillar345], [HITACHI_EX1200] and [HITACHI_EX1900], however they
    are constructed: on a section of at least one point the elevation loop
    of [install] raises nothing (every row of the built-in charts has a
    reach for each payload), and it returns early exactly when a section
    elevation lies outside -4.5 .. 9 m, -12 .. 22 m and -18 .. 10 m around
    the level the machine stands at. *)
Theorem built_in_excavator_reach
    (PW : geometry) (mk : machine) (lo hi : Q)
    (name' : string) (design_type' : gmap string (gmap string Q))
    (waterlvl' h_dry required_length : Q)
    (mobilisation_cost' equipment_cost' : option (gmap string Q)) (offset : option Q)
    (a : install_args) :
  let self := mk name' design_type' waterlvl' h_dry required_length
                 mobilisation_cost' equipment_cost' offset in
  In (mk, (lo, hi)) built_in ->
  section_coords a ≠ [] ->
  geometry_accepts PW self (section_coords a) ->
  exists r, Excavator_reach PW self a = Ok r
            /\ (is_Some r <-> Forall (in_span lo hi (standing_level a))
                                     (np_unique (map snd (section_coords a)))).
Proof.
  intros self Hin Hne Hgeo.
  assert (Hwf : wf_chart self = true
                /\ chart_span (map fst (exc_loading_chart self)) = Some (lo, hi)).
  { subst self. destruct Hin as [H|[H|[H|[]]]]; injection H as <- <- <-;
      split; vm_compute; reflexivity. }
  destruct Hwf as [Hwf Hspan].
  destruct (Excavator_reach_spec PW self a Hne Hwf Hgeo) as (r & Hr & Hcover).
  exists r. split; [exact Hr|]. rewrite Hcover. unfold rows_cover.
  apply Forall_iff. intros d. apply row_beyond_in_span, Hspan.
Qed.

Lemma built_in_excavator_reach_witness :
  exists r, Excavator_reach accepting caterpillar (call_on_top "HMA_300_1000" 2) = Ok r
            /\ (is_Some r <->
                Forall (in_span (-4.5) 9 (standing_level (call_on_top "HMA_300_1000" 2)))
                       (np_unique (map snd (section_coords (call_on_top "HMA_300_1000" 2))))).
Proof.
  apply (built_in_excavator_reach accepting Caterpillar345 (-4.5) 9
           "CAT 345" armour_gradings 0 1 5 None None None (call_on_top "HMA_300_1000" 2)).
  - left. reflexivity.
  - discriminate.
  - apply geometry_accepts_accepting.
Defined.

(** * Crude Monte Carlo *)

(** [MonteCarlo] with 'VdMeer' or 'Hudson' and a z-function that returns
    an array Z of at least one value returns a frame with the given Pf,
    and with Pf_mc = 1 / len(Z) whatever the values of Z: [np.where] with
    the condition alone returns a tuple of one index array, and
    [len(Zabove0)] is the length of that tuple, not the number of samples
    above zero.  The column 'Pf < Pf_mc' holds [Pf_mc < Pf]. *)
Theorem MonteCarlo_estimate
    (kwargs : Type) (z_vdmeer z_hudson : kwargs -> result (list Q))
    (Pf : Q) (zfunc : string) (kw : kwargs) (Z : list Q) :
  selects z_vdmeer z_hudson zfunc kw Z ->
  Z ≠ [] ->
  exists f, MonteCarlo kwargs z_vdmeer z_hudson Pf zfunc kw = Frame f
            /\ col_Pf f = Pf
            /\ col_Pf_mc f = 1 / inject_Z (Z.of_nat (length Z))
            /\ (col_Pf_lt_Pf_mc f = true <-> 1 / inject_Z (Z.of_nat (length Z)) < Pf).
Proof.
  intros Hsel Hne. unfold MonteCarlo.
  assert (Hcalled :
    (if String.eqb zfunc "VdMeer" then Some (z_vdmeer kw)
     else if String.eqb zfunc "Hudson" then Some (z_hudson kw) else None) = Some (Ok Z)).
  { destruct Hsel as [[-> ->]|[-> ->]]; reflexivity. }
  rewrite Hcalled. destruct Z as [|z Z]; [contradiction|]. cbn [length].
  eexists. split; [reflexivity|]. cbn [col_Pf col_Pf_mc col_Pf_lt_Pf_mc].
  split; [reflexivity|]. split; [reflexivity|]. apply Qltb_true.
Qed.

Lemma MonteCarlo_estimate_witness :
  exists f, MonteCarlo unit samples samples (1 # 2) "Hudson" tt = Frame f
            /\ col_Pf f = 1 # 2
            /\ col_Pf_mc f = 1 / inject_Z (Z.of_nat (length [1; -2; 3; -1]))
            /\ (col_Pf_lt_Pf_mc f = true
                <-> 1 / inject_Z (Z.of_nat (length [1; -2; 3; -1])) < 1 # 2).
Proof.
  apply (MonteCarlo_estimate unit samples samples (1 # 2) "Hudson" tt [1; -2; 3; -1]).
  - right. split; reflexivity.
  - discriminate.
Defined.

(** [MonteCarlo] raises [InputError] exactly for the names other than
    'VdMeer' and 'Hudson', before any z-function is called: also for
    'Overtopping', which the docstring and the message list as a choice.
    An empty array Z ends in the ZeroDivisionError of [len(Zabove0) /
    len(Z)]. *)
Theorem MonteCarlo_names
    (kwargs : Type) (z_vdmeer z_hudson : kwargs -> result (list Q))
    (Pf : Q) (zfunc : string) (kw : kwargs) :
  (MonteCarlo kwargs z_vdmeer z_hudson Pf zfunc kw = InputError zfunc
   <-> zfunc <> "VdMeer" /\ zfunc <> "Hudson")
  /\ MonteCarlo kwargs z_vdmeer z_hudson Pf "Overtopping" kw = InputError "Overtopping"
  /\ (selects z_vdmeer z_hudson zfunc kw [] ->
      MonteCarlo kwargs z_vdmeer z_hudson Pf zfunc kw = Raised ZeroDivisionError).
Proof.
  split; [|split; [reflexivity|]].
  - unfold MonteCarlo. destruct (String.eqb_spec zfunc "VdMeer") as [->|Hv].
    + split; [|intros [H _]; exfalso; apply H; reflexivity].
      destruct (z_vdmeer kw) as [[|z Z]|e]; discriminate.
    + destruct (String.eqb_spec zfunc "Hudson") as [->|Hh].
      * split; [|intros [_ H]; exfalso; apply H; reflexivity].
        destruct (z_hudson kw) as [[|z Z]|e]; discriminate.
      * split; [intros _; split; assumption | reflexivity].
  - unfold MonteCarlo. intros [[-> ->]|[-> ->]]; reflexivity.
Qed.

(** * Wave conditions per direction *)

(** The conditions that [Waverose.__init__] declares for 270 degrees
    (Hm0 = 13.9, Tp = 16.4, Tm = 12.3) are returned for no direction:
    whatever [wave_direction] returns has another Hm0, and for '270' it
    returns the conditions of 315 degrees. *)
Theorem wave_direction_270 (direction : string) (r : Q * Q * Q) :
  wave_direction Waverose_init direction = Ok r ->
  Qeq_bool (fst (fst r)) 13.9 = false
  /\ wave_direction Waverose_init "270" = wave_direction Waverose_init "315".
Proof.
  intros Hr. split; [|reflexivity]. revert Hr. unfold wave_direction, item.
  cbv beta iota zeta delta [Waverose_init wave_conditions].
  match goal with |- context [?m !! direction] => destruct (m !! direction) as [c|] eqn:E end;
    [|discriminate].
  repeat (apply lookup_insert_Some in E as [[_ <-]|[_ E]];
          [vm_compute; intros [= <-]; reflexivity |]).
  apply lookup_singleton_Some in E as [_ <-].
  vm_compute. intros [= <-]. reflexivity.
Qed.

Lemma wave_direction_270_witness :
  Qeq_bool (fst (fst (14.2, 17.6, 13.5))) 13.9 = false
  /\ wave_direction Waverose_init "270" = wave_direction Waverose_init "315".
Proof.
  apply (wave_direction_270 "270" (14.2, 17.6, 13.5)). reflexivity.
Defined.
